(** * Order and inventory transactions of the OMS backend (src/app.py)

    A shallow embedding of the Flask handlers of [app.py] over an explicit
    model of the SQLite database they share, followed by the properties
    of the order engine.

    Modelling conventions.
    - A table with a primary key is a finite map from the key to the row;
      [order_items] has no key and is the list of its rows in insertion
      order.
    - Python [int] and SQLite INTEGER are [Z]; Python [float] and SQLite
      REAL are rationals [Q] in the handlers.  What is stated about an
      amount is the expression the code evaluates for it, not an identity
      of exact arithmetic; where rounding decides a property, lines
      280-281 are evaluated in binary64 ([single_line_total_cost]).
    - [request.json] is a record whose fields have the types the handler
      converts them to; an optional key is an [option].
    - A handler body that runs between [BEGIN IMMEDIATE] and
      [conn.commit()] is a computation in the monad [tx]; an exception
      leaves it through [Raise], and the handler's [except] branch
      ([conn.rollback()]) answers 400 and keeps the database it started
      from. *)

From Stdlib Require Import ZArith QArith Lia Ascii String.
From Stdlib Require Import PrimFloat.
From Stdlib Require Uint63.
From stdpp Require Import base option list strings gmap pretty sorting.

Local Open Scope string_scope.
Local Open Scope Z_scope.

(* Decimal literals such as 0.18 stand for the nearest binary64 value. *)
Local Set Warnings "-inexact-float".

(** ** Tables *)

(** products(sku PRIMARY KEY, name, category, quantity, price) *)
Record product := Product {
  p_name : string;
  p_category : option string;
  p_quantity : Z;
  p_price : Q
}.

(** orders(id PRIMARY KEY, ..., total_cost, gst_rate NOT NULL) *)
Record order := Order {
  customer_name : string;
  mobile_number : string;
  email_address : option string;
  order_date : string;
  planned_delivery_date : option string;
  payment_method : option string;
  advance_received : Q;
  personalization_required : Z;
  personalization_details : string;
  total_cost : Q;
  gst_rate : Q
}.

(** order_items(order_id, product_sku, quantity, price, product_name) *)
Record order_item := OrderItem {
  oi_order_id : string;
  oi_product_sku : string;
  oi_quantity : Z;
  oi_price : Q;
  oi_product_name : string
}.

(** The database file.  [last_number] is the single row (id = 1) of
    [order_id_sequence], which [init_db] guarantees to exist. *)
Record db := Db {
  categories : gset string;
  products : gmap string product;
  last_number : Z;
  orders : gmap string order;
  order_items : list order_item
}.

(** A connection.  SQLite enforces foreign keys on a connection only after
    that connection has executed [PRAGMA foreign_keys = ON]; a connection
    returned by [sqlite3.connect] starts with enforcement off.  Every
    handler opens a connection of its own and none of them executes the
    pragma; [init_db] does, on the connection it closes before the server
    starts. *)
Record connection := Connection { foreign_keys : bool }.

Definition sqlite3_connect : connection := {| foreign_keys := false |}.
Definition pragma_foreign_keys_on (c : connection) : connection :=
  {| foreign_keys := true |}.
Definition init_db_connection : connection :=
  pragma_foreign_keys_on sqlite3_connect.

(** ** Request payloads *)

Record item := Item {
  sku : string;
  product_name : string;
  quantity : Z;
  price : Q
}.

Record order_data := OrderData {
  customerName : string;
  mobileNumber : string;
  emailAddress : option string;
  orderDate : string;
  plannedDeliveryDate : option string;
  paymentMethod : option string;
  advanceReceived : option Q;
  personalizationRequired : bool;
  personalizationDetails : option string;
  items : list item;
  gstRate : option Q
}.

Record product_data := ProductData {
  pd_sku : string;
  pd_name : string;
  pd_category : option string;
  pd_quantity : Z;
  pd_price : Q
}.

(** GST_RATE = 0.05 *)
Definition GST_RATE : Q := 0.05.

(** ** Exceptions and responses *)

Inductive exn :=
| ProductNotFound (s : string)
| InsufficientStock (name s : string) (available requested : Z)
| InsufficientStockForUpdate (name s : string) (available delta : Z)
| InventoryUpdateFailed (s : string)
| OrderNotFound
| IntegrityError (msg : string).

(** [str(e)] *)
Definition str (e : exn) : string :=
  match e with
  | ProductNotFound s => "Product with SKU '" +:+ s +:+ "' not found."
  | InsufficientStock name s available requested =>
      "Insufficient stock for " +:+ name +:+ " (SKU: " +:+ s +:+ "). "
      +:+ "Available: " +:+ pretty available
      +:+ ", requested: " +:+ pretty requested +:+ "."
  | InsufficientStockForUpdate name s available delta =>
      "Insufficient stock for " +:+ name +:+ " (SKU: " +:+ s +:+ "). "
      +:+ "Available: " +:+ pretty available
      +:+ ", additional needed: " +:+ pretty delta +:+ "."
  | InventoryUpdateFailed s =>
      "Failed to update inventory for SKU '" +:+ s +:+ "'."
  | OrderNotFound => "Order not found"
  | IntegrityError msg => msg
  end.

(** The JSON body of [get_order]. *)
Record order_view := OrderView {
  v_id : string;
  v_customerName : string;
  v_mobileNumber : string;
  v_emailAddress : option string;
  v_orderDate : string;
  v_plannedDeliveryDate : option string;
  v_paymentMethod : option string;
  v_advanceReceived : Q;
  v_personalizationRequired : bool;
  v_personalizationDetails : string;
  v_totalCost : Q;
  v_gstRate : Q;
  v_items : list item
}.

Inductive response :=
| Created (order_id : string)          (* 201, "Order placed successfully" *)
| Updated (order_id : string)          (* 200, "Order updated successfully" *)
| Deleted                              (* 200, "... deleted successfully" *)
| Accepted                             (* 200/201 of the catalog endpoints *)
| Found (v : order_view)               (* 200 of get_order *)
| NotFound                             (* 404 *)
| Conflict                             (* 409 *)
| BadRequest (error : string).         (* 400, {"error": str(e)} *)

(** ** The transaction monad *)

Inductive result (A : Type) :=
| Ok (a : A) (d : db)
| Raise (e : exn).
Arguments Ok {A} a d.
Arguments Raise {A} e.

Definition tx (A : Type) : Type := db → result A.

Definition ret {A} (a : A) : tx A := λ d, Ok a d.
Definition raise {A} (e : exn) : tx A := λ _, Raise e.
Definition bind {A B} (m : tx A) (k : A → tx B) : tx B :=
  λ d, match m d with
       | Ok a d' => k a d'
       | Raise e => Raise e
       end.
Definition get : tx db := λ d, Ok d d.
Definition put (d' : db) : tx unit := λ _, Ok tt d'.

Notation "x ←← m ;; k" := (bind m (λ x, k))
  (at level 100, m at next level, right associativity).
Notation "m ;;; k" := (bind m (λ _, k))
  (at level 100, right associativity).

(** [for x in xs: body x] *)
Fixpoint for_each {A} (body : A → tx unit) (xs : list A) : tx unit :=
  match xs with
  | [] => ret tt
  | x :: xs' => body x ;;; for_each body xs'
  end.

(** [try: ...; conn.commit(); return r  except: conn.rollback(); return 400] *)
Definition transaction (body : tx response) (d : db) : response * db :=
  match body d with
  | Ok r d' => (r, d')
  | Raise e => (BadRequest (str e), d)
  end.

(** ** SQL statements used by the handlers *)

Definition set_products (ps : gmap string product) (d : db) : db :=
  {| categories := categories d; products := ps;
     last_number := last_number d; orders := orders d;
     order_items := order_items d |}.
Definition set_last_number (n : Z) (d : db) : db :=
  {| categories := categories d; products := products d;
     last_number := n; orders := orders d;
     order_items := order_items d |}.
Definition set_orders (os : gmap string order) (d : db) : db :=
  {| categories := categories d; products := products d;
     last_number := last_number d; orders := os;
     order_items := order_items d |}.
Definition set_order_items (rows : list order_item) (d : db) : db :=
  {| categories := categories d; products := products d;
     last_number := last_number d; orders := orders d;
     order_items := rows |}.
Definition set_categories (cs : gset string) (d : db) : db :=
  {| categories := cs; products := products d;
     last_number := last_number d; orders := orders d;
     order_items := order_items d |}.

Definition add_quantity (n : Z) (p : product) : product :=
  {| p_name := p_name p; p_category := p_category p;
     p_quantity := p_quantity p + n; p_price := p_price p |}.

(** SELECT quantity, name FROM products WHERE sku=? *)
Definition select_product (s : string) : tx (option (Z * string)) :=
  λ d, Ok ((λ p, (p_quantity p, p_name p)) <$> products d !! s) d.

(** UPDATE products SET quantity = quantity - ? WHERE sku = ?
    (returns [cursor.rowcount]) *)
Definition update_quantity_minus (n : Z) (s : string) : tx nat :=
  λ d, match products d !! s with
       | Some p => Ok 1%nat (set_products (<[s := add_quantity (- n) p]> (products d)) d)
       | None => Ok 0%nat d
       end.

(** UPDATE products SET quantity = quantity + ? WHERE sku = ? *)
Definition update_quantity_plus (n : Z) (s : string) : tx nat :=
  λ d, match products d !! s with
       | Some p => Ok 1%nat (set_products (<[s := add_quantity n p]> (products d)) d)
       | None => Ok 0%nat d
       end.

(** INSERT INTO orders (...) VALUES (...); the primary key makes a second
    row with the same id an [sqlite3.IntegrityError]. *)
Definition insert_order (oid : string) (o : order) : tx unit :=
  λ d, match orders d !! oid with
       | Some _ => Raise (IntegrityError "UNIQUE constraint failed: orders.id")
       | None => Ok tt (set_orders (<[oid := o]> (orders d)) d)
       end.

(** INSERT INTO order_items (...) VALUES (...) *)
Definition insert_order_item (row : order_item) : tx unit :=
  λ d, Ok tt (set_order_items (order_items d ++ [row]) d).

Definition of_order (oid : string) (row : order_item) : bool :=
  bool_decide (oi_order_id row = oid).

(** SELECT ... FROM order_items WHERE order_id=? *)
Definition select_order_items (oid : string) : tx (list order_item) :=
  λ d, Ok (List.filter (of_order oid) (order_items d)) d.

(** DELETE FROM order_items WHERE order_id=? *)
Definition delete_order_items (oid : string) : tx unit :=
  λ d, Ok tt (set_order_items
                (List.filter (λ row, negb (of_order oid row)) (order_items d)) d).

(** DELETE FROM orders WHERE id=?   (returns [cursor.rowcount]).  The
    handlers' connections do not enforce foreign keys, so no row of
    [order_items] is touched by this statement. *)
Definition delete_order_row (oid : string) : tx nat :=
  λ d, match orders d !! oid with
       | Some _ => Ok 1%nat (set_orders (delete oid (orders d)) d)
       | None => Ok 0%nat d
       end.

(** ** Order identifiers: f"ORD{new_number:04d}" *)

Fixpoint zeros (k : nat) : string :=
  match k with
  | O => ""
  | S k' => String "0"%char (zeros k')
  end.

(** Left padding of a digit string with zeros up to [width]. *)
Definition zfill (width : nat) (digits : string) : string :=
  zeros (width - String.length digits) +:+ digits.

(** Python's format spec [04d]: sign-aware zero padding to width 4. *)
Definition format_04d (n : Z) : string :=
  if n <? 0 then "-" +:+ zfill 3 (pretty (- n)) else zfill 4 (pretty n).

Definition order_id_of (n : Z) : string := "ORD" +:+ format_04d n.

(** ** handle_create_order *)

Definition subtotal_of (its : list item) : Q :=
  fold_left (λ acc it, acc + price it * inject_Z (quantity it))%Q its 0%Q.

(** Lines 259-270: one availability check per line item. *)
Definition validate_item (it : item) : tx unit :=
  row ←← select_product (sku it) ;;
  match row with
  | None => raise (ProductNotFound (sku it))
  | Some (current_qty, name) =>
      if current_qty <? quantity it
      then raise (InsufficientStock name (sku it) current_qty (quantity it))
      else ret tt
  end.

(** Lines 272-277: the sequence allocator. *)
Definition allocate_order_id : tx string :=
  d ←← get ;;
  let new_number := last_number d + 1 in
  put (set_last_number new_number d) ;;;
  ret (order_id_of new_number).

Definition item_row (oid : string) (it : item) : order_item :=
  {| oi_order_id := oid; oi_product_sku := sku it;
     oi_quantity := quantity it; oi_price := price it;
     oi_product_name := product_name it |}.

(** Lines 303-310. *)
Definition subtract_stock (it : item) : tx unit :=
  rowcount ←← update_quantity_minus (quantity it) (sku it) ;;
  if (rowcount =? 0)%nat then raise (InventoryUpdateFailed (sku it)) else ret tt.

Definition create_order_body (data : order_data) : tx response :=
  let advance := default 0%Q (advanceReceived data) in
  let pers_required := if personalizationRequired data then 1 else 0 in
  let pers_details := default "" (personalizationDetails data) in
  let rate := default GST_RATE (gstRate data) in
  for_each validate_item (items data) ;;;
  new_order_id ←← allocate_order_id ;;
  let subtotal := subtotal_of (items data) in
  let total := (subtotal + subtotal * rate)%Q in
  insert_order new_order_id
    {| customer_name := customerName data;
       mobile_number := mobileNumber data;
       email_address := emailAddress data;
       order_date := orderDate data;
       planned_delivery_date := plannedDeliveryDate data;
       payment_method := paymentMethod data;
       advance_received := advance;
       personalization_required := pers_required;
       personalization_details := pers_details;
       total_cost := total;
       gst_rate := rate |} ;;;
  for_each (λ it, insert_order_item (item_row new_order_id it)) (items data) ;;;
  for_each subtract_stock (items data) ;;;
  ret (Created new_order_id).

Definition handle_create_order (data : order_data) (d : db) : response * db :=
  transaction (create_order_body data) d.

(** ** get_order *)

(** [x or 0.0] for a REAL column *)
Definition or_zero (x : Q) : Q := if Qeq_bool x 0 then 0%Q else x.
(** [s or ""] *)
Definition or_empty (s : string) : string := if decide (s = "") then "" else s.

Definition view_item (row : order_item) : item :=
  {| sku := oi_product_sku row; product_name := oi_product_name row;
     quantity := oi_quantity row; price := oi_price row |}.

(** [gst_rate] is NOT NULL in the table [init_db] creates, so the
    [GST_RATE] alternative of line 375 is never taken. *)
Definition get_order (order_id : string) (d : db) : response :=
  match orders d !! order_id with
  | None => NotFound
  | Some o =>
      Found
        {| v_id := order_id;
           v_customerName := customer_name o;
           v_mobileNumber := mobile_number o;
           v_emailAddress := email_address o;
           v_orderDate := order_date o;
           v_plannedDeliveryDate := planned_delivery_date o;
           v_paymentMethod := payment_method o;
           v_advanceReceived := or_zero (advance_received o);
           v_personalizationRequired := negb (personalization_required o =? 0);
           v_personalizationDetails := or_empty (personalization_details o);
           v_totalCost := or_zero (total_cost o);
           v_gstRate := gst_rate o;
           v_items := view_item <$> List.filter (of_order order_id) (order_items d) |}
  end.

(** ** update_order *)

(** [m[k] = m.get(k, 0) + q] *)
Definition accumulate (m : gmap string Z) (k : string) (q : Z) : gmap string Z :=
  <[k := default 0 (m !! k) + q]> m.

(** Lines 405-408 *)
Definition old_items_of (rows : list order_item) : gmap string Z :=
  fold_left (λ m row, accumulate m (oi_product_sku row) (oi_quantity row)) rows ∅.

(** Lines 410-413 *)
Definition new_map_of (its : list item) : gmap string Z :=
  fold_left (λ m it, accumulate m (sku it) (quantity it)) its ∅.

(** Lines 415-418.  [deltas] is the dict in its iteration order, which is
    that of the Python set [set(old) | set(new)]; Python leaves that order
    unspecified and the model takes the one of [elements]. *)
Definition deltas_of (old_items new_map : gmap string Z) : list (string * Z) :=
  (λ s, (s, default 0 (new_map !! s) - default 0 (old_items !! s)))
    <$> elements (dom old_items ∪ dom new_map).

(** Lines 420-430 *)
Definition validate_delta (sd : string * Z) : tx unit :=
  let '(s, delta) := sd in
  if 0 <? delta then
    row ←← select_product s ;;
    match row with
    | None => raise (ProductNotFound s)
    | Some (current_qty, name) =>
        if current_qty <? delta
        then raise (InsufficientStockForUpdate name s current_qty delta)
        else ret tt
    end
  else ret tt.

(** SELECT gst_rate FROM orders WHERE id=? *)
Definition select_gst_rate (oid : string) : tx (option Q) :=
  λ d, Ok (gst_rate <$> orders d !! oid) d.

(** Lines 432-439.  The column is NOT NULL, so a fetched row always
    carries a rate; the default is the value used when no row is found. *)
Definition resolve_gst_rate (oid : string) (incoming : option Q) : tx Q :=
  match incoming with
  | None => row ←← select_gst_rate oid ;; ret (default GST_RATE row)
  | Some r => ret r
  end.

(** UPDATE orders SET ... WHERE id=?   (returns [cursor.rowcount]) *)
Definition update_order_row (oid : string) (o : order) : tx nat :=
  λ d, match orders d !! oid with
       | Some _ => Ok 1%nat (set_orders (<[oid := o]> (orders d)) d)
       | None => Ok 0%nat d
       end.

(** Lines 469-474 *)
Definition apply_delta (sd : string * Z) : tx unit :=
  let '(s, delta) := sd in
  if delta =? 0 then ret tt
  else update_quantity_minus delta s ;;; ret tt.

(** [x or None] for a string *)
Definition or_none (x : option string) : option string :=
  match x with
  | Some s => if decide (s = "") then None else Some s
  | None => None
  end.

Definition update_order_body (order_id : string) (data : order_data) : tx response :=
  let advance := default 0%Q (advanceReceived data) in
  let pers_required := if personalizationRequired data then 1 else 0 in
  let pers_details := default "" (personalizationDetails data) in
  let new_items := items data in
  rows ←← select_order_items order_id ;;
  let old_items := old_items_of rows in
  let new_map := new_map_of new_items in
  let deltas := deltas_of old_items new_map in
  for_each validate_delta deltas ;;;
  rate ←← resolve_gst_rate order_id (gstRate data) ;;
  let subtotal := subtotal_of new_items in
  let total := (subtotal + subtotal * rate)%Q in
  rowcount ←← update_order_row order_id
    {| customer_name := customerName data;
       mobile_number := mobileNumber data;
       email_address := emailAddress data;
       order_date := orderDate data;
       planned_delivery_date := plannedDeliveryDate data;
       payment_method := or_none (paymentMethod data);
       advance_received := advance;
       personalization_required := pers_required;
       personalization_details := pers_details;
       total_cost := total;
       gst_rate := rate |} ;;
  if (rowcount =? 0)%nat then raise OrderNotFound
  else
    delete_order_items order_id ;;;
    for_each (λ it, insert_order_item (item_row order_id it)) new_items ;;;
    for_each apply_delta deltas ;;;
    ret (Updated order_id).

Definition update_order (order_id : string) (data : order_data) (d : db)
  : response * db :=
  transaction (update_order_body order_id data) d.

(** ** delete_order *)

(** Lines 507-511: the rowcount is not inspected. *)
Definition return_stock (row : order_item) : tx unit :=
  update_quantity_plus (oi_quantity row) (oi_product_sku row) ;;; ret tt.

Definition delete_order_body (order_id : string) : tx response :=
  rows ←← select_order_items order_id ;;
  match rows with
  | [] =>
      rowcount ←← delete_order_row order_id ;;
      if (rowcount =? 0)%nat then ret NotFound else ret Deleted
  | _ :: _ =>
      for_each return_stock rows ;;;
      delete_order_items order_id ;;;
      rowcount ←← delete_order_row order_id ;;
      if (rowcount =? 0)%nat then ret NotFound else ret Deleted
  end.

Definition delete_order (order_id : string) (d : db) : response * db :=
  transaction (delete_order_body order_id) d.

(** ** Invoice figures (the arithmetic of generate_invoice_pdf) *)

Record invoice := Invoice {
  inv_subtotal : Q;
  inv_gst_amount : Q;
  inv_total_cost : Q;
  inv_balance_due : Q
}.

Definition Qmax (x y : Q) : Q := if Qle_bool y x then x else y.

Definition invoice_figures (order_id : string) (d : db) : option invoice :=
  o ← orders d !! order_id ;
  let its := view_item <$> List.filter (of_order order_id) (order_items d) in
  let subtotal := subtotal_of its in
  let gst_amount := (subtotal * gst_rate o)%Q in
  let total := (subtotal + gst_amount)%Q in
  let advance := or_zero (advance_received o) in
  Some {| inv_subtotal := subtotal; inv_gst_amount := gst_amount;
          inv_total_cost := total;
          inv_balance_due := Qmax (total - advance)%Q 0%Q |}.

(** ** Catalog endpoints *)

Definition product_of (pd : product_data) : product :=
  {| p_name := pd_name pd; p_category := pd_category pd;
     p_quantity := pd_quantity pd; p_price := pd_price pd |}.

Definition add_product (pd : product_data) (d : db) : response * db :=
  match products d !! pd_sku pd with
  | Some _ => (Conflict, d)
  | None => (Accepted, set_products (<[pd_sku pd := product_of pd]> (products d)) d)
  end.

Definition update_product (s : string) (pd : product_data) (d : db) : response * db :=
  match products d !! s with
  | Some _ => (Accepted, set_products (<[s := product_of pd]> (products d)) d)
  | None => (NotFound, d)
  end.

(** Foreign keys are off on the handler's connection: the rows of
    [order_items] that name the product keep their [product_sku]. *)
Definition delete_product (s : string) (d : db) : response * db :=
  match products d !! s with
  | Some _ => (Accepted, set_products (delete s (products d)) d)
  | None => (NotFound, d)
  end.

Definition add_category (name : string) (d : db) : response * db :=
  if decide (name ∈ categories d) then (Conflict, d)
  else (Accepted, set_categories (categories d ∪ {[ name ]}) d).

(** The action of [FOREIGN KEY(category) REFERENCES categories(name)
    ON DELETE SET NULL] on one product row. *)
Definition on_delete_set_null (name : string) (p : product) : product :=
  {| p_name := p_name p;
     p_category := if decide (p_category p = Some name) then None else p_category p;
     p_quantity := p_quantity p; p_price := p_price p |}.

(** DELETE FROM categories WHERE name=?   executed on connection [c]; the
    foreign-key action runs only if [c] enforces foreign keys. *)
Definition delete_category_row (c : connection) (name : string) (d : db) : nat * db :=
  if decide (name ∈ categories d) then
    let d' := set_categories (categories d ∖ {[ name ]}) d in
    (1%nat, if foreign_keys c
            then set_products (on_delete_set_null name <$> products d) d'
            else d')
  else (0%nat, d).

Definition delete_category (name : string) (d : db) : response * db :=
  let conn := sqlite3_connect in
  let '(rowcount, d') := delete_category_row conn name d in
  (if (rowcount =? 0)%nat then NotFound else Accepted, d').

(** ** init_db and the request loop *)

(** The database [init_db] leaves behind on first start: empty tables and
    the sequence row (1, 0). *)
Definition init_db : db :=
  {| categories := ∅; products := ∅; last_number := 0;
     orders := ∅; order_items := [] |}.

Inductive request :=
| PostOrder (data : order_data)
| PutOrder (order_id : string) (data : order_data)
| DeleteOrder (order_id : string)
| PostProduct (pd : product_data)
| PutProduct (s : string) (pd : product_data)
| DeleteProduct (s : string)
| PostCategory (name : string)
| DeleteCategory (name : string).

Definition handle (r : request) (d : db) : response * db :=
  match r with
  | PostOrder data => handle_create_order data d
  | PutOrder oid data => update_order oid data d
  | DeleteOrder oid => delete_order oid d
  | PostProduct pd => add_product pd d
  | PutProduct s pd => update_product s pd d
  | DeleteProduct s => delete_product s d
  | PostCategory name => add_category name d
  | DeleteCategory name => delete_category name d
  end.

(** The responses and the final database of a sequence of requests. *)
Fixpoint serve (rs : list request) (d : db) : list response * db :=
  match rs with
  | [] => ([], d)
  | r :: rs' =>
      let '(resp, d') := handle r d in
      let '(resps, d'') := serve rs' d' in
      (resp :: resps, d'')
  end.

(** ** Reading an order identifier back *)

Definition digit_value (c : ascii) : option N :=
  (if decide (c = "0") then Some 0
   else if decide (c = "1") then Some 1
   else if decide (c = "2") then Some 2
   else if decide (c = "3") then Some 3
   else if decide (c = "4") then Some 4
   else if decide (c = "5") then Some 5
   else if decide (c = "6") then Some 6
   else if decide (c = "7") then Some 7
   else if decide (c = "8") then Some 8
   else if decide (c = "9") then Some 9
   else None)%char%N.

Fixpoint parse_digits (acc : N) (s : string) : option N :=
  match s with
  | "" => Some acc
  | String c s' => v ← digit_value c ; parse_digits (10 * acc + v)%N s'
  end.

Definition parse_int (s : string) : option Z :=
  match s with
  | String c s' =>
      if decide (c = "-"%char) then (λ n, - Z.of_N n) <$> parse_digits 0 s'
      else Z.of_N <$> parse_digits 0 s
  | "" => None
  end.

(** The number an identifier of the form ORD<digits> was issued for. *)
Definition order_number (oid : string) : option Z :=
  match oid with
  | String o (String r (String d s)) =>
      if decide (o = "O"%char ∧ r = "R"%char ∧ d = "D"%char) then parse_int s else None
  | _ => None
  end.

(** ** Consistency of a database

    Every identifier stored in [orders] that reads as ORD<n> has
    n at most the counter, and every row of [order_items] belongs to a
    stored order.  [init_db] establishes this and every handler keeps it. *)
Definition issued_by (last : Z) (oid : string) : bool :=
  match order_number oid with
  | Some n => bool_decide (n ≤ last)
  | None => true
  end.

Definition db_consistent (d : db) : bool :=
  forallb (issued_by (last_number d)) (elements (dom (orders d)))
  && forallb (λ row, bool_decide (is_Some (orders d !! oi_order_id row)))
       (order_items d).

(** ** Quantities the statements speak about *)

(** Sum of the quantities an item list requests for one sku. *)
Definition requested (s : string) (its : list item) : Z :=
  foldr (λ it acc, if decide (sku it = s) then quantity it + acc else acc) 0 its.

(** Sum of the quantities the stored rows of an order hold for one sku. *)
Definition reserved (oid s : string) (d : db) : Z :=
  foldr (λ row acc, if decide (oi_product_sku row = s) then oi_quantity row + acc else acc)
        0 (List.filter (of_order oid) (order_items d)).

(** Σ unitPrice_i × quantity_i, written as a right fold. *)
Definition line_total_sum (its : list item) : Q :=
  foldr (λ it acc, price it * inject_Z (quantity it) + acc)%Q 0%Q its.

(** A line item passes the availability check of create. *)
Definition available (d : db) (it : item) : bool :=
  match products d !! sku it with
  | Some p => negb (p_quantity p <? quantity it)
  | None => false
  end.

(** The exception the check raises for a line item that does not pass. *)
Definition validation_error (d : db) (it : item) : exn :=
  match products d !! sku it with
  | Some p => InsufficientStock (p_name p) (sku it) (p_quantity p) (quantity it)
  | None => ProductNotFound (sku it)
  end.

(** The products table after the stock of every line has been subtracted. *)
Definition consume (its : list item) (ps : gmap string product) : gmap string product :=
  fold_left (λ ps it, alter (add_quantity (- quantity it)) (sku it) ps) its ps.

(** The order header create inserts. *)
Definition created_order (data : order_data) : order :=
  let rate := default GST_RATE (gstRate data) in
  {| customer_name := customerName data;
     mobile_number := mobileNumber data;
     email_address := emailAddress data;
     order_date := orderDate data;
     planned_delivery_date := plannedDeliveryDate data;
     payment_method := paymentMethod data;
     advance_received := default 0%Q (advanceReceived data);
     personalization_required := if personalizationRequired data then 1 else 0;
     personalization_details := default "" (personalizationDetails data);
     total_cost := (subtotal_of (items data) + subtotal_of (items data) * rate)%Q;
     gst_rate := rate |}.

(** The database a successful create commits. *)
Definition created_db (data : order_data) (d : db) : db :=
  let oid := order_id_of (last_number d + 1) in
  {| categories := categories d;
     products := consume (items data) (products d);
     last_number := last_number d + 1;
     orders := <[oid := created_order data]> (orders d);
     order_items := order_items d ++ (item_row oid <$> items data) |}.


(** ** Sample data for the worked examples *)

Definition customer_order (its : list item) (rate : option Q) : order_data :=
  {| customerName := "Asha"; mobileNumber := "9000000000";
     emailAddress := None; orderDate := "2025-09-05";
     plannedDeliveryDate := None; paymentMethod := None;
     advanceReceived := None; personalizationRequired := false;
     personalizationDetails := None; items := its; gstRate := rate |}.

(** One product, SKU1, with 10 on hand at 100.00, and no orders yet. *)
Definition shop : db :=
  {| categories := {[ "Helmets" ]};
     products := {[ "SKU1" := Product "Helmet" (Some "Helmets") 10 100 ]};
     last_number := 0; orders := ∅; order_items := [] |}.

(** ** Update and delete: the databases they commit *)

(** The rows [order_items] holds for an order. *)
Definition rows_of (oid : string) (d : db) : list order_item :=
  List.filter (of_order oid) (order_items d).

(** The [deltas] dict update computes for an order and a payload. *)
Definition order_deltas (oid : string) (data : order_data) (d : db) : list (string * Z) :=
  deltas_of (old_items_of (rows_of oid d)) (new_map_of (items data)).

(** Net additional consumption of a sku by an update, in the words of the
    specification: new quantity minus old quantity, absent meaning zero. *)
Definition delta (oid : string) (data : order_data) (d : db) (s : string) : Z :=
  requested s (items data) - reserved oid s d.

(** An entry of [deltas] passes the availability check of update. *)
Definition delta_available (d : db) (sd : string * Z) : bool :=
  if 0 <? sd.2 then
    match products d !! sd.1 with
    | Some p => negb (p_quantity p <? sd.2)
    | None => false
    end
  else true.

Definition delta_error (d : db) (sd : string * Z) : exn :=
  match products d !! sd.1 with
  | Some p => InsufficientStockForUpdate (p_name p) sd.1 (p_quantity p) sd.2
  | None => ProductNotFound sd.1
  end.

(** The products table after the nonzero deltas have been applied. *)
Definition apply_deltas (deltas : list (string * Z)) (ps : gmap string product)
  : gmap string product :=
  fold_left (λ ps sd, if sd.2 =? 0 then ps
                      else alter (add_quantity (- sd.2)) sd.1 ps) deltas ps.

(** The rate update uses: the payload's, else the stored one. *)
Definition effective_rate (oid : string) (data : order_data) (d : db) : Q :=
  match gstRate data with
  | Some r => r
  | None => default GST_RATE (gst_rate <$> orders d !! oid)
  end.

Definition updated_order (oid : string) (data : order_data) (d : db) : order :=
  let rate := effective_rate oid data d in
  {| customer_name := customerName data;
     mobile_number := mobileNumber data;
     email_address := emailAddress data;
     order_date := orderDate data;
     planned_delivery_date := plannedDeliveryDate data;
     payment_method := or_none (paymentMethod data);
     advance_received := default 0%Q (advanceReceived data);
     personalization_required := if personalizationRequired data then 1 else 0;
     personalization_details := default "" (personalizationDetails data);
     total_cost := (subtotal_of (items data) + subtotal_of (items data) * rate)%Q;
     gst_rate := rate |}.

Definition updated_db (oid : string) (data : order_data) (d : db) : db :=
  {| categories := categories d;
     products := apply_deltas (order_deltas oid data d) (products d);
     last_number := last_number d;
     orders := <[oid := updated_order oid data d]> (orders d);
     order_items :=
       List.filter (λ row, negb (of_order oid row)) (order_items d)
       ++ (item_row oid <$> items data) |}.

(** The products table after the stock of every row has been returned. *)
Definition restock (rows : list order_item) (ps : gmap string product)
  : gmap string product :=
  fold_left (λ ps row, alter (add_quantity (oi_quantity row)) (oi_product_sku row) ps)
            rows ps.

Definition deleted_db (oid : string) (d : db) : db :=
  {| categories := categories d;
     products := restock (rows_of oid d) (products d);
     last_number := last_number d;
     orders := delete oid (orders d);
     order_items := List.filter (λ row, negb (of_order oid row)) (order_items d) |}.

(** An order ORD0001 holding {A:3, B:2}, stored with rate 0.18; on hand
    after that order: 2 of A, none of B, 1 of C. *)
Definition reconcile_db : db :=
  {| categories := ∅;
     products := {[ "A" := Product "Alpha" None 2 10;
                    "B" := Product "Beta" None 0 20;
                    "C" := Product "Gamma" None 1 30 ]};
     last_number := 1;
     orders := {[ "ORD0001" :=
                    created_order
                      (customer_order [Item "A" "Alpha" 3 10; Item "B" "Beta" 2 20]
                                      (Some 0.18%Q)) ]};
     order_items := [OrderItem "ORD0001" "A" 3 10 "Alpha";
                     OrderItem "ORD0001" "B" 2 20 "Beta"] |}.

(** The edit to {A:5, B:0, C:1}, without a gstRate key. *)
Definition reconcile_intent : order_data :=
  customer_order [Item "A" "Alpha" 5 10; Item "B" "Beta" 0 20; Item "C" "Gamma" 1 30]
                 None.

(** The identifiers carried by the 201 answers of a run, in order. *)
Definition created_ids (resps : list response) : list string :=
  omap (λ r, match r with Created oid => Some oid | _ => None end) resps.


(** ** Lines 280-281 in binary64, for a payload with one line item *)

(** A Python [int] that fits a signed 64-bit column, as a [float]. *)
Definition float_of_int (z : Z) : float :=
  if z <? 0 then PrimFloat.opp (of_uint63 (Uint63.of_Z (- z)))
  else of_uint63 (Uint63.of_Z z).

(** [sum(float(item['price']) * int(item['quantity']) for item in items)]
    over one item: [sum] starts from 0. *)
Definition single_line_subtotal (price : float) (quantity : Z) : float :=
  PrimFloat.add 0%float (PrimFloat.mul price (float_of_int quantity)).

(** [total_cost = subtotal + (subtotal * gst_rate)] *)
Definition single_line_total_cost (price : float) (quantity : Z) (rate : float) : float :=
  let subtotal := single_line_subtotal price quantity in
  PrimFloat.add subtotal (PrimFloat.mul subtotal rate).

(** The total in the words of the specification: subtotal × (1 + taxRate). *)
Definition subtotal_times_one_plus_rate (price : float) (quantity : Z) (rate : float) : float :=
  PrimFloat.mul (single_line_subtotal price quantity) (PrimFloat.add 1%float rate).

(** ** Quantities of the further properties *)

(** Sum of the quantities a list of rows holds for one sku. *)
Definition sum_rows (s : string) (rows : list order_item) : Z :=
  foldr (λ row acc, if decide (oi_product_sku row = s) then oi_quantity row + acc else acc)
        0 rows.

(** Sum of the quantities all stored rows, of every order, hold for one
    sku. *)
Definition total_reserved (s : string) (d : db) : Z :=
  sum_rows s (order_items d).

(** The requests served by the three order-writing handlers. *)
Definition is_order_request (r : request) : bool :=
  match r with
  | PostOrder _ | PutOrder _ _ | DeleteOrder _ => true
  | _ => false
  end.

(** ** get_orders *)

(** One element of the JSON list of [get_orders]. *)
Record order_summary := OrderSummary {
  s_id : string;
  s_customerName : string;
  s_mobileNumber : string;
  s_orderDate : string;
  s_plannedDeliveryDate : option string;
  s_totalCost : Q
}.

Definition summary (row : string * order) : order_summary :=
  {| s_id := row.1;
     s_customerName := customer_name row.2;
     s_mobileNumber := mobile_number row.2;
     s_orderDate := order_date row.2;
     s_plannedDeliveryDate := planned_delivery_date row.2;
     s_totalCost := total_cost row.2 |}.

(** ORDER BY id DESC: SQLite compares TEXT byte by byte, a proper prefix
    before the longer string; [a] may stand before [b] when b <= a. *)
Definition id_desc (a b : string * order) : Prop := String.le b.1 a.1.

Definition id_desc_dec (a b : string * order) : Decision (id_desc a b) :=
  String.le_dec b.1 a.1.

(** SELECT id, customer_name, mobile_number, order_date,
    planned_delivery_date, total_cost FROM orders ORDER BY id DESC *)
Definition get_orders (d : db) : list order_summary :=
  summary <$> @merge_sort _ id_desc id_desc_dec (map_to_list (orders d)).

(** Two consecutive counter values give identifiers in ascending byte
    order. *)
Definition ascending_step (m : Z) : bool :=
  String.leb (order_id_of m) (order_id_of (m + 1)).
(** * Properties *)

(** ** The monad and the loops *)

Lemma bind_Ok {A B} (m : tx A) (k : A → tx B) d a d' :
  m d = Ok a d' → bind m k d = k a d'.
Proof. unfold bind. by intros ->. Qed.

Lemma bind_Raise {A B} (m : tx A) (k : A → tx B) d e :
  m d = Raise e → bind m k d = Raise e.
Proof. unfold bind. by intros ->. Qed.

Lemma add_quantity_add a b p :
  add_quantity a (add_quantity b p) = add_quantity (b + a) p.
Proof. unfold add_quantity; simpl. f_equal. lia. Qed.

Lemma add_quantity_0 p : add_quantity 0 p = p.
Proof. destruct p; unfold add_quantity; simpl. f_equal. lia. Qed.

(** ** Validation of a create intent *)

Lemma validate_item_pass d it :
  available d it = true → validate_item it d = Ok tt d.
Proof.
  unfold available, validate_item, select_product, bind.
  destruct (products d !! sku it) as [p|]; simpl; [|done].
  by destruct (p_quantity p <? quantity it).
Qed.

Lemma validate_item_fail d it :
  available d it = false → validate_item it d = Raise (validation_error d it).
Proof.
  unfold available, validate_item, validation_error, select_product, bind.
  destruct (products d !! sku it) as [p|]; simpl; [|done].
  by destruct (p_quantity p <? quantity it).
Qed.

Lemma validate_all d its :
  for_each validate_item its d =
    match List.find (λ it, negb (available d it)) its with
    | Some it => Raise (validation_error d it)
    | None => Ok tt d
    end.
Proof.
  induction its as [|it its IH]; simpl; [done|].
  destruct (available d it) eqn:Hav; simpl.
  - rewrite (bind_Ok _ _ _ _ _ (validate_item_pass _ _ Hav)). done.
  - by rewrite (bind_Raise _ _ _ _ (validate_item_fail _ _ Hav)).
Qed.

(** ** Inserting the rows and subtracting the stock *)

Lemma insert_items_all oid its d :
  for_each (λ it, insert_order_item (item_row oid it)) its d =
    Ok tt (set_order_items (order_items d ++ (item_row oid <$> its)) d).
Proof.
  revert d. induction its as [|it its IH]; intros d; simpl.
  - unfold ret. rewrite app_nil_r. by destruct d.
  - unfold bind at 1, insert_order_item. rewrite IH. simpl.
    unfold set_order_items; simpl. by rewrite <- app_assoc.
Qed.

Lemma consume_lookup its ps s :
  consume its ps !! s = add_quantity (- requested s its) <$> ps !! s.
Proof.
  revert ps. induction its as [|it its IH]; intros ps; simpl.
  - destruct (ps !! s) as [p|]; simpl; [|done]. by rewrite add_quantity_0.
  - unfold consume in *. simpl. rewrite IH.
    destruct (decide (sku it = s)) as [->|Hne].
    + rewrite lookup_alter_eq. destruct (ps !! s) as [p|]; simpl; [|done].
      rewrite add_quantity_add. do 2 f_equal. lia.
    + by rewrite lookup_alter_ne.
Qed.

Lemma subtract_all its d :
  Forall (λ it, is_Some (products d !! sku it)) its →
  for_each subtract_stock its d = Ok tt (set_products (consume its (products d)) d).
Proof.
  revert d. induction its as [|it its IH]; intros d Hall; simpl.
  - by destruct d.
  - inversion Hall as [|? ? [p Hp] Hrest]; subst.
    unfold bind at 1, subtract_stock, bind at 1, update_quantity_minus.
    rewrite Hp. simpl. unfold ret at 1.
    rewrite IH.
    + unfold set_products; simpl. do 3 f_equal.
      unfold consume; simpl. f_equal.
      apply map_eq; intros k. destruct (decide (sku it = k)) as [<-|Hne].
      * by rewrite lookup_insert_eq, lookup_alter_eq, Hp.
      * by rewrite lookup_insert_ne, lookup_alter_ne.
    + simpl. eapply Forall_impl; [exact Hrest|].
      intros it' [p' Hp']; simpl.
      destruct (decide (sku it = sku it')) as [Heq|Hne].
      * rewrite Heq, lookup_insert_eq. eauto.
      * rewrite lookup_insert_ne by done. eauto.
Qed.

Lemma find_none_available d its :
  List.find (λ it, negb (available d it)) its = None →
  Forall (λ it, is_Some (products d !! sku it)) its.
Proof.
  induction its as [|it its IH]; simpl; [constructor|].
  destruct (available d it) eqn:Hav; simpl; [|done].
  intros H. constructor; [|by apply IH].
  unfold available in Hav. destruct (products d !! sku it); [eauto|done].
Qed.

(** What [create_order_body] computes, case by case. *)
Lemma create_order_body_eq data d :
  create_order_body data d =
    match List.find (λ it, negb (available d it)) (items data) with
    | Some it => Raise (validation_error d it)
    | None =>
        match orders d !! order_id_of (last_number d + 1) with
        | Some _ => Raise (IntegrityError "UNIQUE constraint failed: orders.id")
        | None => Ok (Created (order_id_of (last_number d + 1))) (created_db data d)
        end
    end.
Proof.
  unfold create_order_body. unfold bind at 1. rewrite validate_all.
  destruct (List.find _ _) eqn:Hfind; [done|].
  apply find_none_available in Hfind.
  unfold bind at 1, allocate_order_id, bind at 1, get, bind at 1, put, ret at 1.
  unfold bind at 1, insert_order. simpl.
  destruct (orders d !! order_id_of (last_number d + 1)); [done|].
  unfold bind at 1. rewrite insert_items_all.
  unfold bind at 1. rewrite subtract_all by done.
  done.
Qed.

(** ** Strings and decimal rendering *)

Lemma append_cons c s1 s2 : String c s1 +:+ s2 = String c (s1 +:+ s2).
Proof. reflexivity. Qed.

Lemma append_empty s : "" +:+ s = s.
Proof. reflexivity. Qed.

Lemma length_append s1 s2 :
  String.length (s1 +:+ s2) = (String.length s1 + String.length s2)%nat.
Proof.
  induction s1 as [|c s1 IH]; [done|].
  rewrite append_cons. simpl. by rewrite IH.
Qed.

Lemma append_assoc s1 s2 s3 : (s1 +:+ s2) +:+ s3 = s1 +:+ (s2 +:+ s3).
Proof.
  induction s1 as [|c s1 IH]; [done|].
  rewrite !append_cons. by rewrite IH.
Qed.

Lemma length_zeros k : String.length (zeros k) = k.
Proof. induction k as [|k IH]; simpl; [done|by rewrite IH]. Qed.

Lemma length_zfill w s :
  String.length (zfill w s) = (w `max` String.length s)%nat.
Proof. unfold zfill. rewrite length_append, length_zeros. lia. Qed.

Lemma zfill_wide w s : (w ≤ String.length s)%nat → zfill w s = s.
Proof.
  intros H. unfold zfill. replace (w - String.length s)%nat with 0%nat by lia. done.
Qed.

Lemma pretty_N_go_length_ge x s :
  (String.length s ≤ String.length (pretty_N_go x s))%nat.
Proof.
  revert s. induction (N.lt_wf_0 x) as [x _ IH]; intros s.
  destruct (decide (x = 0%N)) as [->|Hx]; [by rewrite pretty_N_go_0|].
  rewrite pretty_N_go_step by lia.
  etrans; [|apply IH; apply N.div_lt; lia]. simpl. lia.
Qed.

Lemma pretty_N_go_app x s : pretty_N_go x s = pretty_N_go x "" +:+ s.
Proof.
  revert s. induction (N.lt_wf_0 x) as [x _ IH]; intros s.
  destruct (decide (x = 0%N)) as [->|Hx]; [by rewrite !pretty_N_go_0|].
  rewrite (pretty_N_go_step x s), (pretty_N_go_step x "") by lia.
  assert (x `div` 10 < x)%N as Hlt by (apply N.div_lt; lia).
  rewrite (IH _ Hlt (String _ s)), (IH _ Hlt (String _ "")).
  by rewrite append_assoc.
Qed.

Lemma digit_value_char v : (v < 10)%N → digit_value (pretty_N_char v) = Some v.
Proof.
  intros H.
  assert (v = 0 ∨ v = 1 ∨ v = 2 ∨ v = 3 ∨ v = 4 ∨ v = 5 ∨ v = 6 ∨ v = 7
          ∨ v = 8 ∨ v = 9)%N as Hv by lia.
  repeat (destruct Hv as [->|Hv]; [done|]). by subst.
Qed.

Lemma parse_digits_app acc s1 s2 :
  parse_digits acc (s1 +:+ s2) = parse_digits acc s1 ≫= λ a, parse_digits a s2.
Proof.
  revert acc. induction s1 as [|c s1 IH]; intros acc; [done|].
  rewrite append_cons. simpl.
  destruct (digit_value c); simpl; [apply IH|done].
Qed.

Lemma parse_pretty_N_go x : parse_digits 0 (pretty_N_go x "") = Some x.
Proof.
  induction (N.lt_wf_0 x) as [x _ IH].
  destruct (decide (x = 0%N)) as [->|Hx]; [done|].
  rewrite pretty_N_go_step, pretty_N_go_app, parse_digits_app by lia.
  rewrite IH by (apply N.div_lt; lia). simpl.
  rewrite digit_value_char by (apply N.mod_lt; lia). simpl.
  f_equal. rewrite (N.div_mod x 10) at 3 by lia. lia.
Qed.

Lemma parse_pretty_N (x : N) : parse_digits 0 (pretty x) = Some x.
Proof.
  unfold pretty, pretty_N. case_decide; [by subst|apply parse_pretty_N_go].
Qed.

Lemma parse_digits_zeros k s : parse_digits 0 (zeros k +:+ s) = parse_digits 0 s.
Proof.
  induction k as [|k IH]; [done|].
  simpl zeros. rewrite append_cons. simpl. apply IH.
Qed.

Lemma pretty_Z_nonneg (n : Z) : 0 ≤ n → pretty n = pretty (Z.to_N n).
Proof. by destruct n. Qed.

Lemma pretty_Z_neg (n : Z) : n < 0 → pretty (- n) = pretty (Z.to_N (- n)).
Proof. by destruct n. Qed.

Lemma parse_int_digits s n :
  parse_digits 0 s = Some n → s ≠ "" → parse_int s = Some (Z.of_N n).
Proof.
  destruct s as [|c s]; [done|]. intros Hp _. unfold parse_int.
  case_decide as Hc; [|by rewrite Hp].
  subst c. simpl in Hp. done.
Qed.

Lemma zfill_nonempty w s : (0 < w)%nat → zfill w s ≠ "".
Proof.
  intros Hw Heq. apply (f_equal String.length) in Heq.
  rewrite length_zfill in Heq. simpl in Heq. lia.
Qed.

Lemma parse_int_format n : parse_int (format_04d n) = Some n.
Proof.
  unfold format_04d. destruct (Z.ltb_spec n 0) as [Hneg|Hpos].
  - rewrite append_cons, append_empty. unfold parse_int.
    rewrite decide_True by done.
    unfold zfill. rewrite parse_digits_zeros, pretty_Z_neg, parse_pretty_N by done.
    simpl. f_equal. lia.
  - erewrite parse_int_digits.
    + f_equal. apply Z2N.id. done.
    + unfold zfill. by rewrite parse_digits_zeros, pretty_Z_nonneg, parse_pretty_N.
    + apply zfill_nonempty. lia.
Qed.

Lemma order_number_id n : order_number (order_id_of n) = Some n.
Proof.
  unfold order_id_of. rewrite !append_cons, append_empty. unfold order_number.
  rewrite decide_True by done. apply parse_int_format.
Qed.

Lemma order_id_of_inj m n : order_id_of m = order_id_of n → m = n.
Proof.
  intros H. apply (f_equal order_number) in H.
  rewrite !order_number_id in H. congruence.
Qed.

Lemma pretty_N_go_length_lower k x s :
  (10 ^ N.of_nat k ≤ x)%N →
  (String.length s + S k ≤ String.length (pretty_N_go x s))%nat.
Proof.
  revert x s. induction k as [|k IH]; intros x s Hx.
  - rewrite pretty_N_go_step by (simpl in Hx; lia).
    etrans; [|apply pretty_N_go_length_ge]. simpl. lia.
  - assert (0 < 10 ^ N.of_nat (S k))%N by (apply N.neq_0_lt_0, N.pow_nonzero; lia).
    rewrite pretty_N_go_step by lia.
    etrans; [|apply IH].
    + simpl. lia.
    + rewrite Nat2N.inj_succ, N.pow_succ_r' in Hx.
      apply N.div_le_lower_bound; lia.
Qed.

Lemma pretty_N_go_length_upper k x s :
  (x < 10 ^ N.of_nat k)%N →
  (String.length (pretty_N_go x s) ≤ String.length s + k)%nat.
Proof.
  revert x s. induction k as [|k IH]; intros x s Hx.
  - assert (x = 0%N) as -> by (simpl in Hx; lia). rewrite pretty_N_go_0. lia.
  - destruct (decide (x = 0%N)) as [->|Hne]; [rewrite pretty_N_go_0; lia|].
    rewrite pretty_N_go_step by lia.
    etrans; [apply IH|simpl; lia].
    rewrite Nat2N.inj_succ, N.pow_succ_r' in Hx.
    apply N.Div0.div_lt_upper_bound; lia.
Qed.

(** Identifiers of counters up to 9999 have exactly four digits. *)
Lemma format_04d_small n :
  0 ≤ n ≤ 9999 → String.length (format_04d n) = 4%nat.
Proof.
  intros [H0 H1]. unfold format_04d.
  destruct (Z.ltb_spec n 0); [lia|].
  rewrite length_zfill, pretty_Z_nonneg by done.
  unfold pretty, pretty_N. case_decide; [simpl; lia|].
  pose proof (pretty_N_go_length_upper 4 (Z.to_N n) "") as Hup.
  simpl in Hup. lia.
Qed.

(** Past 9999 the decimal rendering is kept whole. *)
Lemma format_04d_large n : 9999 < n → format_04d n = pretty n.
Proof.
  intros Hn. unfold format_04d.
  destruct (Z.ltb_spec n 0); [lia|].
  apply zfill_wide. rewrite pretty_Z_nonneg by done.
  unfold pretty, pretty_N. case_decide; [lia|].
  pose proof (pretty_N_go_length_lower 3 (Z.to_N n) "") as Hlow.
  simpl in Hlow. lia.
Qed.

Lemma format_04d_width n : (4 ≤ String.length (format_04d n))%nat.
Proof.
  unfold format_04d. destruct (n <? 0).
  - rewrite append_cons, append_empty. simpl. rewrite length_zfill. lia.
  - rewrite length_zfill. lia.
Qed.

(** ** Consistent databases *)

Lemma db_consistent_issued d oid :
  db_consistent d = true → is_Some (orders d !! oid) → issued_by (last_number d) oid = true.
Proof.
  unfold db_consistent. intros [Hids _]%andb_prop Hin.
  rewrite forallb_forall in Hids. apply Hids.
  apply list_elem_of_In, elem_of_elements, elem_of_dom. done.
Qed.

Lemma db_consistent_rows d row :
  db_consistent d = true → row ∈ order_items d → is_Some (orders d !! oi_order_id row).
Proof.
  unfold db_consistent. intros [_ Hrows]%andb_prop Hin.
  rewrite forallb_forall in Hrows. apply list_elem_of_In, Hrows in Hin.
  by apply bool_decide_eq_true in Hin.
Qed.

Lemma db_consistent_intro d :
  (∀ oid, is_Some (orders d !! oid) → issued_by (last_number d) oid = true) →
  (∀ row, row ∈ order_items d → is_Some (orders d !! oi_order_id row)) →
  db_consistent d = true.
Proof.
  intros Hids Hrows. unfold db_consistent. apply andb_true_intro; split.
  - apply forallb_forall. intros oid Hin. apply Hids.
    by apply list_elem_of_In, elem_of_elements, elem_of_dom in Hin.
  - apply forallb_forall. intros row Hin.
    apply bool_decide_eq_true, Hrows, list_elem_of_In, Hin.
Qed.

(** In a consistent database the identifier the allocator hands out next
    is not a key of [orders]. *)
Lemma next_id_fresh d :
  db_consistent d = true → orders d !! order_id_of (last_number d + 1) = None.
Proof.
  intros Hc. destruct (orders d !! _) eqn:Hlook; [|done].
  assert (issued_by (last_number d) (order_id_of (last_number d + 1)) = true) as Hi
    by (apply db_consistent_issued; eauto).
  unfold issued_by in Hi. rewrite order_number_id in Hi.
  apply bool_decide_eq_true in Hi. lia.
Qed.

Lemma issued_by_mono a b oid : a ≤ b → issued_by a oid = true → issued_by b oid = true.
Proof.
  unfold issued_by. destruct (order_number oid); [|done].
  rewrite !bool_decide_eq_true. lia.
Qed.

(** ** Create: results *)

Lemma find_unavailable d its it :
  it ∈ its → available d it = false →
  ∃ it', List.find (λ it, negb (available d it)) its = Some it'
         ∧ it' ∈ its ∧ available d it' = false.
Proof.
  intros Hin Hav.
  destruct (List.find (λ it, negb (available d it)) its) as [it'|] eqn:Hfind.
  - apply find_some in Hfind as [Hin' Hneg]. exists it'. split; [done|].
    split; [by apply list_elem_of_In|]. by apply negb_true_iff.
  - eapply find_none in Hfind; [|by apply list_elem_of_In].
    simpl in Hfind. rewrite Hav in Hfind. done.
Qed.

Lemma find_all_available d its :
  (∀ it, it ∈ its → available d it = true) →
  List.find (λ it, negb (available d it)) its = None.
Proof.
  intros Hall. destruct (List.find _ its) as [it|] eqn:Hfind; [|done].
  apply find_some in Hfind as [Hin Hneg].
  rewrite Hall in Hneg by (by apply list_elem_of_In). done.
Qed.

Lemma available_false d it :
  available d it = false ↔
  products d !! sku it = None ∨
  ∃ p, products d !! sku it = Some p ∧ p_quantity p < quantity it.
Proof.
  unfold available. destruct (products d !! sku it) as [p|]; split.
  - intros H%negb_false_iff%Z.ltb_lt. right. eauto.
  - intros [?|(p' & [= <-] & Hlt)]; [done|]. by apply negb_false_iff, Z.ltb_lt.
  - by left.
  - done.
Qed.

Lemma create_commits data d oid d' :
  handle_create_order data d = (Created oid, d') →
  List.find (λ it, negb (available d it)) (items data) = None
  ∧ orders d !! order_id_of (last_number d + 1) = None
  ∧ oid = order_id_of (last_number d + 1) ∧ d' = created_db data d.
Proof.
  unfold handle_create_order, transaction. rewrite create_order_body_eq.
  destruct (List.find _ _); [done|].
  destruct (orders d !! _); [done|].
  by intros [= <- <-].
Qed.

Lemma create_succeeds data d :
  (∀ it, it ∈ items data → available d it = true) →
  orders d !! order_id_of (last_number d + 1) = None →
  handle_create_order data d =
    (Created (order_id_of (last_number d + 1)), created_db data d).
Proof.
  intros Hall Hfresh. unfold handle_create_order, transaction.
  rewrite create_order_body_eq, find_all_available, Hfresh; done.
Qed.

Lemma subtotal_of_sum its : (subtotal_of its == line_total_sum its)%Q.
Proof.
  unfold subtotal_of.
  assert (∀ acc, fold_left (λ acc it, acc + price it * inject_Z (quantity it)) its acc
                 == acc + line_total_sum its)%Q as Hgen.
  { induction its as [|it its IH]; intros acc; simpl.
    - ring.
    - rewrite IH. ring. }
  rewrite Hgen. ring.
Qed.

Lemma find_first {A} (f : A → bool) (l : list A) x :
  List.find f l = Some x →
  ∃ l1 l2 : list A, l = (l1 ++ x :: l2)%list ∧ ∀ y, y ∈ l1 → f y = false.
Proof.
  induction l as [|a l IH]; simpl; [done|].
  destruct (f a) eqn:Hfa.
  - intros [= ->]. exists [], l. split; [done|].
    intros y Hy. by apply not_elem_of_nil in Hy.
  - intros Hfind. destruct (IH Hfind) as (l1 & l2 & -> & Hl1).
    exists (a :: l1), l2. split; [done|].
    intros y [->|Hy]%elem_of_cons; [done|by apply Hl1].
Qed.

Lemma available_true d it :
  available d it = true ↔
  ∃ p, products d !! sku it = Some p ∧ quantity it ≤ p_quantity p.
Proof.
  unfold available. destruct (products d !! sku it) as [p|]; split.
  - intros H%negb_true_iff%Z.ltb_ge. eauto.
  - intros (p' & [= <-] & Hle). by apply negb_true_iff, Z.ltb_ge.
  - done.
  - by intros (p' & ? & _).
Qed.

(** C2: when some line item of a create intent asks for more than the
    stock of its product, or names an unknown sku, [handle_create_order]
    answers 400 and returns the database it was given (so no product,
    order or order-item row changes and the counter keeps its value); the
    error text is the one raised for the first line item of the intent
    that fails the check, and spells out that item's sku. *)
Theorem create_rejects_insufficient_stock (data : order_data) (d : db) :
  (∃ it, it ∈ items data ∧
     (products d !! sku it = None ∨
      ∃ p, products d !! sku it = Some p ∧ p_quantity p < quantity it)) →
  ∃ (l1 : list item) (it : item) (l2 : list item),
    items data = (l1 ++ it :: l2)%list ∧
    (∀ it', it' ∈ l1 →
       ∃ p', products d !! sku it' = Some p' ∧ quantity it' ≤ p_quantity p') ∧
    ((products d !! sku it = None ∧
      handle_create_order data d =
        (BadRequest ("Product with SKU '" +:+ sku it +:+ "' not found."), d))
     ∨
     (∃ p, products d !! sku it = Some p ∧ p_quantity p < quantity it ∧
      handle_create_order data d =
        (BadRequest ("Insufficient stock for " +:+ p_name p +:+ " (SKU: "
                     +:+ sku it +:+ "). Available: " +:+ pretty (p_quantity p)
                     +:+ ", requested: " +:+ pretty (quantity it) +:+ "."), d))).
Proof.
  intros (it & Hin & Hbad).
  apply available_false in Hbad.
  destruct (find_unavailable d _ _ Hin Hbad) as (it' & Hfind & Hin' & Hav').
  destruct (find_first _ _ _ Hfind) as (l1 & l2 & Hitems & Hl1).
  exists l1, it', l2. split; [done|]. split.
  { intros it0 Hit0. apply available_true.
    specialize (Hl1 it0 Hit0). by apply negb_false_iff in Hl1. }
  unfold handle_create_order, transaction.
  rewrite create_order_body_eq, Hfind.
  apply available_false in Hav' as [Hnone|(p & Hp & Hlt)].
  - left. split; [done|]. unfold validation_error. by rewrite Hnone.
  - right. exists p. split; [done|]. split; [done|].
    unfold validation_error. by rewrite Hp.
Qed.

Lemma create_rejects_insufficient_stock_witness :
  ∃ msg,
    handle_create_order (customer_order [Item "SKU1" "Helmet" 11 100] None) shop
      = (BadRequest msg, shop).
Proof.
  destruct (create_rejects_insufficient_stock
              (customer_order [Item "SKU1" "Helmet" 11 100] None) shop)
    as (l1 & it & l2 & _ & _ & [[_ Hresp]|(p & _ & _ & Hresp)]).
  - exists (Item "SKU1" "Helmet" 11 100). split.
    + simpl. left.
    + right. exists (Product "Helmet" (Some "Helmets") 10 100). split.
      * reflexivity.
      * simpl. lia.
  - eexists. exact Hresp.
  - eexists. exact Hresp.
Defined.

(** Binary64 rounding separates the total the code stores from
    subtotal × (1 + taxRate): for one line of 8 units at 10.0 and rate
    0.18 the code's subtotal + subtotal * gst_rate is 94.4, the product
    is 94.39999999999999, and Python's == tells them apart. *)
Lemma total_cost_differs_from_subtotal_times_one_plus_rate :
  single_line_subtotal 10 8 = 80%float ∧
  single_line_total_cost 10 8 0.18 = 94.4%float ∧
  subtotal_times_one_plus_rate 10 8 0.18 = 94.39999999999999%float ∧
  PrimFloat.eqb (single_line_total_cost 10 8 0.18)
                (subtotal_times_one_plus_rate 10 8 0.18) = false.
Proof. vm_compute. repeat split. Qed.

(** C3 (as amended): when [handle_create_order] commits, every product's
    quantity is its prior quantity minus the sum of the quantities the
    intent requests for its sku, and the stored total_cost is
    subtotal + subtotal * rate, the expression of line 281, with subtotal
    the sum of line 280 and rate the payload's gstRate or else GST_RATE;
    a create whose line items all have sufficient stock does commit on a
    consistent database; and for SKU1 (10 on hand, 100.00) the intent of
    4 units at rate 0.05 gives subtotal 400, tax 20, total 420 and leaves
    6, the total being 420 in binary64 as well. *)
Theorem create_updates_stock_and_total :
  (∀ data d oid d',
     handle_create_order data d = (Created oid, d') →
     (∀ s p, products d !! s = Some p →
        ∃ p', products d' !! s = Some p' ∧
              p_quantity p' = p_quantity p - requested s (items data)) ∧
     (∃ o, orders d' !! oid = Some o ∧
           gst_rate o = default GST_RATE (gstRate data) ∧
           total_cost o =
             (subtotal_of (items data) + subtotal_of (items data) * gst_rate o)%Q))
  ∧ (∀ data d,
       db_consistent d = true →
       (∀ it, it ∈ items data →
          ∃ p, products d !! sku it = Some p ∧ quantity it ≤ p_quantity p) →
       ∃ oid d', handle_create_order data d = (Created oid, d'))
  ∧ (let '(resp, d') :=
       handle_create_order
         (customer_order [Item "SKU1" "Helmet" 4 100] (Some 0.05%Q)) shop in
     resp = Created "ORD0001" ∧
     p_quantity <$> products d' !! "SKU1" = Some 6 ∧
     (∃ o, orders d' !! "ORD0001" = Some o ∧ (total_cost o == 420)%Q) ∧
     (∃ inv, invoice_figures "ORD0001" d' = Some inv ∧
             (inv_subtotal inv == 400)%Q ∧ (inv_gst_amount inv == 20)%Q ∧
             (inv_total_cost inv == 420)%Q))
  ∧ (single_line_subtotal 100 4 = 400%float ∧
     single_line_total_cost 100 4 0.05 = 420%float).
Proof.
  split; [|split; [|split]].
  - intros data d oid d' Hc.
    apply create_commits in Hc as (_ & _ & -> & ->). split.
    + intros s p Hp. unfold created_db; simpl.
      rewrite consume_lookup, Hp. simpl. eexists; split; [done|]. simpl. lia.
    + exists (created_order data). unfold created_db; simpl.
      rewrite lookup_insert_eq. done.
  - intros data d Hcons Hall. do 2 eexists.
    apply create_succeeds; [|by apply next_id_fresh].
    intros it Hin. destruct (Hall it Hin) as (p & Hp & Hle).
    unfold available. rewrite Hp. apply negb_true_iff, Z.ltb_ge. done.
  - vm_compute. split; [done|]. split; [done|]. split.
    + eexists. split; [reflexivity|]. vm_compute. reflexivity.
    + eexists. split; [reflexivity|]. vm_compute. done.
  - vm_compute. split; reflexivity.
Qed.

Lemma create_updates_stock_and_total_witness :
  ∃ p', products (created_db (customer_order [Item "SKU1" "Helmet" 4 100] None) shop)
          !! "SKU1" = Some p' ∧
        p_quantity p' = 10 - requested "SKU1" [Item "SKU1" "Helmet" 4 100].
Proof.
  destruct create_updates_stock_and_total as [Hgen _].
  destruct (Hgen (customer_order [Item "SKU1" "Helmet" 4 100] None) shop
              "ORD0001"
              (created_db (customer_order [Item "SKU1" "Helmet" 4 100] None) shop))
    as [Hstock _].
  - vm_compute. reflexivity.
  - apply (Hstock "SKU1" (Product "Helmet" (Some "Helmets") 10 100)).
    vm_compute. reflexivity.
Defined.

(** ** Stock updates as [alter] *)

Lemma set_products_id d : set_products (products d) d = d.
Proof. by destruct d. Qed.

Lemma alter_absent (f : product → product) s (ps : gmap string product) :
  ps !! s = None → alter f s ps = ps.
Proof.
  intros Hn. apply map_eq; intros k. destruct (decide (s = k)) as [<-|Hne].
  - by rewrite lookup_alter_eq, Hn.
  - by rewrite lookup_alter_ne.
Qed.

Lemma insert_as_alter (f : product → product) s p (ps : gmap string product) :
  ps !! s = Some p → <[s := f p]> ps = alter f s ps.
Proof.
  intros Hp. apply map_eq; intros k. destruct (decide (s = k)) as [<-|Hne].
  - by rewrite lookup_insert_eq, lookup_alter_eq, Hp.
  - by rewrite lookup_insert_ne, lookup_alter_ne.
Qed.

Lemma update_quantity_minus_eq n s d :
  ∃ rc, update_quantity_minus n s d =
          Ok rc (set_products (alter (add_quantity (- n)) s (products d)) d).
Proof.
  unfold update_quantity_minus. destruct (products d !! s) as [p|] eqn:Hp.
  - exists 1%nat. by rewrite (insert_as_alter _ _ _ _ Hp).
  - exists 0%nat. by rewrite alter_absent, set_products_id.
Qed.

Lemma update_quantity_plus_eq n s d :
  ∃ rc, update_quantity_plus n s d =
          Ok rc (set_products (alter (add_quantity n) s (products d)) d).
Proof.
  unfold update_quantity_plus. destruct (products d !! s) as [p|] eqn:Hp.
  - exists 1%nat. by rewrite (insert_as_alter _ _ _ _ Hp).
  - exists 0%nat. by rewrite alter_absent, set_products_id.
Qed.

(** ** Delete *)

Lemma return_all rows d :
  for_each return_stock rows d = Ok tt (set_products (restock rows (products d)) d).
Proof.
  revert d. induction rows as [|row rows IH]; intros d; simpl.
  - by rewrite set_products_id.
  - unfold bind at 1, return_stock, bind at 1.
    destruct (update_quantity_plus_eq (oi_quantity row) (oi_product_sku row) d)
      as [rc ->].
    unfold ret at 1. by rewrite IH.
Qed.

Lemma restock_lookup rows ps s :
  restock rows ps !! s =
    add_quantity (foldr (λ row acc, if decide (oi_product_sku row = s)
                                    then oi_quantity row + acc else acc) 0 rows)
      <$> ps !! s.
Proof.
  revert ps. induction rows as [|row rows IH]; intros ps; simpl.
  - destruct (ps !! s) as [p|]; simpl; [|done]. by rewrite add_quantity_0.
  - unfold restock in *. simpl. rewrite IH.
    destruct (decide (oi_product_sku row = s)) as [->|Hne].
    + rewrite lookup_alter_eq. destruct (ps !! s) as [p|]; simpl; [|done].
      by rewrite add_quantity_add.
    + by rewrite lookup_alter_ne.
Qed.

Lemma filter_none_rest {A} (f : A → bool) (l : list A) :
  List.filter f l = [] → List.filter (λ x, negb (f x)) l = l.
Proof.
  induction l as [|x l IH]; simpl; [done|].
  destruct (f x); simpl; [done|]. intros H. by rewrite IH.
Qed.

Lemma filter_rest_none {A} (f : A → bool) (l : list A) :
  List.filter f (List.filter (λ x, negb (f x)) l) = [].
Proof.
  induction l as [|x l IH]; simpl; [done|].
  destruct (f x) eqn:Hf; simpl; [done|]. by rewrite Hf.
Qed.

Lemma delete_absent (oid : string) (os : gmap string order) :
  os !! oid = None → delete oid os = os.
Proof.
  intros Hn. apply map_eq; intros k. destruct (decide (oid = k)) as [<-|Hne].
  - by rewrite lookup_delete_eq.
  - by rewrite lookup_delete_ne.
Qed.

(** What [delete_order] answers and commits. *)
Lemma delete_order_eq oid d :
  delete_order oid d =
    (match orders d !! oid with Some _ => Deleted | None => NotFound end,
     deleted_db oid d).
Proof.
  unfold delete_order, transaction, delete_order_body.
  unfold bind at 1, select_order_items. fold (rows_of oid d).
  unfold deleted_db.
  destruct (rows_of oid d) as [|row rows] eqn:Hrows.
  - unfold bind at 1, delete_order_row. unfold rows_of in Hrows.
    rewrite (filter_none_rest _ _ Hrows). unfold restock; simpl.
    destruct (orders d !! oid) eqn:Ho; simpl; [done|].
    rewrite delete_absent by done. by destruct d.
  - unfold bind at 1. rewrite return_all.
    unfold bind at 1, delete_order_items.
    unfold bind at 1, delete_order_row. simpl.
    destruct (orders d !! oid) eqn:Ho; simpl; [done|].
    by rewrite delete_absent.
Qed.

Lemma delete_order_absent oid d :
  rows_of oid d = [] → orders d !! oid = None → delete_order oid d = (NotFound, d).
Proof.
  intros Hrows Ho. rewrite delete_order_eq, Ho. f_equal.
  unfold deleted_db. rewrite Hrows. unfold rows_of in Hrows.
  rewrite (filter_none_rest _ _ Hrows), delete_absent by done.
  by destruct d.
Qed.

(** C5: for an order that exists, the first [delete_order] answers 200 and
    the second one 404; the first call adds to every product the
    quantities the order's rows held for its sku, removes the header and
    the rows, and the second call changes nothing, so the stock is
    returned once. *)
Theorem delete_order_twice (oid : string) (d : db) :
  is_Some (orders d !! oid) →
  ∃ d1,
    delete_order oid d = (Deleted, d1) ∧
    delete_order oid d1 = (NotFound, d1) ∧
    (∀ s p, products d !! s = Some p →
       ∃ p', products d1 !! s = Some p' ∧
             p_quantity p' = p_quantity p + reserved oid s d) ∧
    (∀ s, products d !! s = None → products d1 !! s = None) ∧
    orders d1 !! oid = None ∧
    rows_of oid d1 = [].
Proof.
  intros [o Ho]. exists (deleted_db oid d).
  assert (rows_of oid (deleted_db oid d) = []) as Hrows
    by apply filter_rest_none.
  assert (orders (deleted_db oid d) !! oid = None) as Hgone
    by apply lookup_delete_eq.
  split; [by rewrite delete_order_eq, Ho|].
  split; [by apply delete_order_absent|].
  split; [|split; [|done]].
  - intros s p Hp. simpl. rewrite restock_lookup, Hp. simpl.
    eexists. split; [done|]. done.
  - intros s Hp. simpl. by rewrite restock_lookup, Hp.
Qed.

Lemma delete_order_twice_witness :
  ∃ d1,
    delete_order "ORD0001" (created_db (customer_order [Item "SKU1" "Helmet" 4 100] None) shop)
      = (Deleted, d1) ∧
    delete_order "ORD0001" d1 = (NotFound, d1) ∧
    products d1 !! "SKU1" = Some (Product "Helmet" (Some "Helmets") 10 100).
Proof.
  destruct (delete_order_twice "ORD0001"
              (created_db (customer_order [Item "SKU1" "Helmet" 4 100] None) shop))
    as (d1 & H1 & H2 & Hstock & _).
  - vm_compute. eexists. reflexivity.
  - exists d1. split; [exact H1|]. split; [exact H2|].
    destruct (Hstock "SKU1" (Product "Helmet" (Some "Helmets") 6 100))
      as (p' & Hp' & Hq).
    + vm_compute. reflexivity.
    + rewrite Hp'. f_equal.
      rewrite delete_order_eq in H1. injection H1 as <-.
      vm_compute in Hp'. congruence.
Defined.

(** ** Update: the quantity maps *)

Lemma accumulate_lookup (m : gmap string Z) k q s :
  default 0 (accumulate m k q !! s) =
    if decide (k = s) then default 0 (m !! s) + q else default 0 (m !! s).
Proof.
  unfold accumulate. destruct (decide (k = s)) as [->|Hne].
  - by rewrite lookup_insert_eq.
  - by rewrite lookup_insert_ne.
Qed.

Lemma accumulate_dom (m : gmap string Z) k q :
  dom (accumulate m k q) = {[ k ]} ∪ dom m.
Proof. unfold accumulate. by rewrite dom_insert_L. Qed.

Lemma old_items_lookup rows s :
  default 0 (old_items_of rows !! s) =
    foldr (λ row acc, if decide (oi_product_sku row = s)
                      then oi_quantity row + acc else acc) 0 rows.
Proof.
  unfold old_items_of.
  assert (∀ m : gmap string Z,
    default 0 (fold_left (λ m row, accumulate m (oi_product_sku row) (oi_quantity row))
                 rows m !! s) =
    default 0 (m !! s) +
    foldr (λ row acc, if decide (oi_product_sku row = s)
                      then oi_quantity row + acc else acc) 0 rows) as Hgen.
  { induction rows as [|row rows IH]; intros m; simpl; [lia|].
    rewrite IH, accumulate_lookup. case_decide; lia. }
  rewrite Hgen, lookup_empty. simpl. lia.
Qed.

Lemma new_map_lookup its s :
  default 0 (new_map_of its !! s) = requested s its.
Proof.
  unfold new_map_of, requested.
  assert (∀ m : gmap string Z,
    default 0 (fold_left (λ m it, accumulate m (sku it) (quantity it)) its m !! s) =
    default 0 (m !! s) +
    foldr (λ it acc, if decide (sku it = s) then quantity it + acc else acc) 0 its)
    as Hgen.
  { induction its as [|it its IH]; intros m; simpl; [lia|].
    rewrite IH, accumulate_lookup. case_decide; lia. }
  rewrite Hgen, lookup_empty. simpl. lia.
Qed.

Lemma old_items_dom rows s :
  s ∈ dom (old_items_of rows) ↔ ∃ row, row ∈ rows ∧ oi_product_sku row = s.
Proof.
  unfold old_items_of.
  assert (∀ m : gmap string Z,
    s ∈ dom (fold_left (λ m row, accumulate m (oi_product_sku row) (oi_quantity row))
               rows m) ↔
    s ∈ dom m ∨ ∃ row, row ∈ rows ∧ oi_product_sku row = s) as Hgen.
  { induction rows as [|row rows IH]; intros m; simpl.
    - split; [by left|]. intros [?|(row & Hin & _)]; [done|]. by inversion Hin.
    - rewrite IH, accumulate_dom. split.
      + intros [[->%elem_of_singleton|?]%elem_of_union|(r & Hin & Hs)].
        * right. exists row. split; [left|done].
        * by left.
        * right. exists r. split; [by right|done].
      + intros [?|(r & Hin & Hs)].
        { left. apply elem_of_union. by right. }
        apply elem_of_cons in Hin as [->|Hin].
        * left. apply elem_of_union. left. by apply elem_of_singleton.
        * right. eauto. }
  rewrite Hgen, dom_empty_L. split; [|by right].
  intros [Hin|?]; [|done]. by apply not_elem_of_empty in Hin.
Qed.

Lemma new_map_dom its s :
  s ∈ dom (new_map_of its) ↔ ∃ it, it ∈ its ∧ sku it = s.
Proof.
  unfold new_map_of.
  assert (∀ m : gmap string Z,
    s ∈ dom (fold_left (λ m it, accumulate m (sku it) (quantity it)) its m) ↔
    s ∈ dom m ∨ ∃ it, it ∈ its ∧ sku it = s) as Hgen.
  { induction its as [|it its IH]; intros m; simpl.
    - split; [by left|]. intros [?|(it & Hin & _)]; [done|]. by inversion Hin.
    - rewrite IH, accumulate_dom. split.
      + intros [[->%elem_of_singleton|?]%elem_of_union|(r & Hin & Hs)].
        * right. exists it. split; [left|done].
        * by left.
        * right. exists r. split; [by right|done].
      + intros [?|(r & Hin & Hs)].
        { left. apply elem_of_union. by right. }
        apply elem_of_cons in Hin as [->|Hin].
        * left. apply elem_of_union. left. by apply elem_of_singleton.
        * right. eauto. }
  rewrite Hgen, dom_empty_L. split; [|by right].
  intros [Hin|?]; [|done]. by apply not_elem_of_empty in Hin.
Qed.

(** The entries of [deltas]: one per sku of the old rows or of the new
    items, each holding new quantity minus old quantity. *)
Lemma order_deltas_elem oid data d s dl :
  (s, dl) ∈ order_deltas oid data d ↔
  ((∃ row, row ∈ rows_of oid d ∧ oi_product_sku row = s) ∨
   (∃ it, it ∈ items data ∧ sku it = s))
  ∧ dl = delta oid data d s.
Proof.
  unfold order_deltas, deltas_of, delta, reserved. fold (rows_of oid d).
  rewrite list_elem_of_fmap. setoid_rewrite elem_of_elements.
  setoid_rewrite elem_of_union.
  rewrite <- old_items_dom, <- new_map_dom, <- old_items_lookup, <- new_map_lookup.
  split.
  - intros (k & [= -> ->] & Hk). done.
  - intros [Hk ->]. exists s. done.
Qed.

Lemma order_deltas_keys_NoDup oid data d : NoDup (order_deltas oid data d).*1.
Proof.
  unfold order_deltas, deltas_of.
  assert (∀ (g : string → Z) (l : list string), ((λ s, (s, g s)) <$> l).*1 = l) as Hkeys.
  { intros g l. induction l as [|k l IH]; [done|]. rewrite !fmap_cons. simpl. by f_equal. }
  rewrite Hkeys. apply NoDup_elements.
Qed.

Lemma delta_outside oid data d s :
  ¬ ((∃ row, row ∈ rows_of oid d ∧ oi_product_sku row = s) ∨
     (∃ it, it ∈ items data ∧ sku it = s)) →
  delta oid data d s = 0.
Proof.
  rewrite <- old_items_dom, <- new_map_dom. intros Hout.
  unfold delta, reserved. fold (rows_of oid d).
  rewrite <- old_items_lookup, <- new_map_lookup.
  rewrite (not_elem_of_dom_1 (old_items_of _) s) by tauto.
  rewrite (not_elem_of_dom_1 (new_map_of _) s) by tauto. done.
Qed.

(** ** Update: validation, application, result *)

Lemma validate_delta_pass d sd :
  delta_available d sd = true → validate_delta sd d = Ok tt d.
Proof.
  destruct sd as [s dl]. unfold delta_available, validate_delta; simpl.
  destruct (0 <? dl); [|done].
  unfold bind, select_product.
  destruct (products d !! s) as [p|]; simpl; [|done].
  by destruct (p_quantity p <? dl).
Qed.

Lemma validate_delta_fail d sd :
  delta_available d sd = false → validate_delta sd d = Raise (delta_error d sd).
Proof.
  destruct sd as [s dl]. unfold delta_available, validate_delta, delta_error; simpl.
  destruct (0 <? dl); [|done].
  unfold bind, select_product.
  destruct (products d !! s) as [p|]; simpl; [|done].
  by destruct (p_quantity p <? dl).
Qed.

Lemma validate_deltas d deltas :
  for_each validate_delta deltas d =
    match List.find (λ sd, negb (delta_available d sd)) deltas with
    | Some sd => Raise (delta_error d sd)
    | None => Ok tt d
    end.
Proof.
  induction deltas as [|sd deltas IH]; simpl; [done|].
  destruct (delta_available d sd) eqn:Hav; simpl.
  - by rewrite (bind_Ok _ _ _ _ _ (validate_delta_pass _ _ Hav)).
  - by rewrite (bind_Raise _ _ _ _ (validate_delta_fail _ _ Hav)).
Qed.

Lemma apply_all deltas d :
  for_each apply_delta deltas d =
    Ok tt (set_products (apply_deltas deltas (products d)) d).
Proof.
  revert d. induction deltas as [|[s dl] deltas IH]; intros d; simpl.
  - by rewrite set_products_id.
  - unfold bind at 1, apply_delta. unfold apply_deltas in *. simpl.
    destruct (dl =? 0).
    + unfold ret at 1. apply IH.
    + unfold bind at 1. destruct (update_quantity_minus_eq dl s d) as [rc ->].
      unfold ret at 1. by rewrite IH.
Qed.

(** What [update_order_body] computes, case by case. *)
Lemma update_order_body_eq oid data d :
  update_order_body oid data d =
    match List.find (λ sd, negb (delta_available d sd)) (order_deltas oid data d) with
    | Some sd => Raise (delta_error d sd)
    | None =>
        match orders d !! oid with
        | Some _ => Ok (Updated oid) (updated_db oid data d)
        | None => Raise OrderNotFound
        end
    end.
Proof.
  unfold update_order_body.
  unfold bind at 1, select_order_items.
  fold (rows_of oid d). fold (order_deltas oid data d).
  unfold bind at 1. rewrite validate_deltas.
  destruct (List.find _ _); [done|].
  assert (resolve_gst_rate oid (gstRate data) d = Ok (effective_rate oid data d) d)
    as Hrate.
  { unfold resolve_gst_rate, effective_rate.
    by destruct (gstRate data). }
  unfold bind at 1. rewrite Hrate.
  unfold bind at 1, update_order_row.
  destruct (orders d !! oid) eqn:Ho; simpl; [|done].
  unfold bind at 1, delete_order_items.
  unfold bind at 1. rewrite insert_items_all.
  unfold bind at 1. rewrite apply_all.
  done.
Qed.

Lemma apply_deltas_cons sd deltas ps :
  apply_deltas (sd :: deltas) ps =
    apply_deltas deltas
      (if sd.2 =? 0 then ps else alter (add_quantity (- sd.2)) sd.1 ps).
Proof. reflexivity. Qed.

Lemma apply_deltas_lookup (g : string → Z) (l : list string) ps s :
  NoDup l →
  apply_deltas ((λ k, (k, g k)) <$> l) ps !! s =
    if decide (s ∈ l) then add_quantity (- g s) <$> ps !! s else ps !! s.
Proof.
  revert ps. induction l as [|k l IH]; intros ps Hnd.
  - destruct (decide (s ∈ [])) as [Hin|_]; [|done]. by apply not_elem_of_nil in Hin.
  - apply NoDup_cons in Hnd as [Hk Hnd].
    rewrite fmap_cons, apply_deltas_cons, IH by done. cbn [fst snd].
    assert (∀ qs : gmap string product, s ≠ k →
        (if g k =? 0 then qs else alter (add_quantity (- g k)) k qs) !! s = qs !! s)
        as Hstep.
    { intros qs Hne. destruct (g k =? 0); [done|]. by rewrite lookup_alter_ne. }
    destruct (decide (s ∈ l)) as [Hin|Hnin];
      destruct (decide (s ∈ k :: l)) as [Hin'|Hnin'].
    + rewrite Hstep; [done|]. by intros ->.
    + destruct Hnin'. by right.
    + apply elem_of_cons in Hin' as [->|?]; [|done].
      destruct (Z.eqb_spec (g k) 0) as [Hz|Hnz].
      * rewrite Hz. simpl. destruct (ps !! k); simpl; [|done].
        by rewrite add_quantity_0.
      * by rewrite lookup_alter_eq.
    + rewrite Hstep; [done|]. intros ->. destruct Hnin'. left.
Qed.

(** After the deltas have been applied, a product holds its former
    quantity minus the delta of its sku. *)
Lemma order_deltas_applied oid data d s :
  apply_deltas (order_deltas oid data d) (products d) !! s =
    add_quantity (- delta oid data d s) <$> products d !! s.
Proof.
  unfold order_deltas, deltas_of.
  rewrite apply_deltas_lookup by apply NoDup_elements.
  unfold delta, reserved. fold (rows_of oid d).
  rewrite <- old_items_lookup, <- new_map_lookup.
  case_decide as Hin; [done|].
  rewrite elem_of_elements, elem_of_union in Hin.
  rewrite (not_elem_of_dom_1 (old_items_of _) s) by tauto.
  rewrite (not_elem_of_dom_1 (new_map_of _) s) by tauto. simpl.
  destruct (products d !! s); simpl; [|done]. by rewrite add_quantity_0.
Qed.

Lemma find_exists {A} (f : A → bool) (l : list A) x :
  x ∈ l → f x = true → ∃ y, List.find f l = Some y ∧ y ∈ l ∧ f y = true.
Proof.
  intros Hin Hf. destruct (List.find f l) as [y|] eqn:Hfind.
  - apply find_some in Hfind as [Hy Hfy]. exists y.
    split; [done|]. split; [by apply list_elem_of_In|done].
  - eapply find_none in Hfind; [|by apply list_elem_of_In]. congruence.
Qed.

Lemma update_succeeds oid data d :
  is_Some (orders d !! oid) →
  (∀ s, 0 < delta oid data d s →
     ∃ p, products d !! s = Some p ∧ delta oid data d s ≤ p_quantity p) →
  update_order oid data d = (Updated oid, updated_db oid data d).
Proof.
  intros [o Ho] Hpos. unfold update_order, transaction.
  rewrite update_order_body_eq, Ho.
  destruct (List.find _ _) as [[s dl]|] eqn:Hfind; [|done].
  apply find_some in Hfind as [Hin Hbad].
  apply list_elem_of_In, order_deltas_elem in Hin as [_ ->].
  apply negb_true_iff in Hbad. unfold delta_available in Hbad. simpl in Hbad.
  destruct (Z.ltb_spec 0 (delta oid data d s)) as [Hlt|]; [|done].
  destruct (Hpos s Hlt) as (p & Hp & Hle). rewrite Hp in Hbad.
  apply negb_false_iff, Z.ltb_lt in Hbad. lia.
Qed.

Lemma update_rejected oid data d s :
  0 < delta oid data d s →
  (products d !! s = None ∨
   ∃ p, products d !! s = Some p ∧ p_quantity p < delta oid data d s) →
  ∃ sd, sd ∈ order_deltas oid data d ∧ delta_available d sd = false ∧
        update_order oid data d = (BadRequest (str (delta_error d sd)), d).
Proof.
  intros Hlt Hbad.
  assert ((s, delta oid data d s) ∈ order_deltas oid data d) as Hin.
  { apply order_deltas_elem. split; [|done].
    destruct (decide (s ∈ dom (old_items_of (rows_of oid d))
                      ∪ dom (new_map_of (items data)))) as [Hd|Hd].
    - by rewrite elem_of_union, old_items_dom, new_map_dom in Hd.
    - rewrite elem_of_union, old_items_dom, new_map_dom in Hd.
      apply delta_outside in Hd. lia. }
  assert (negb (delta_available d (s, delta oid data d s)) = true) as Hneg.
  { apply negb_true_iff. unfold delta_available. simpl.
    destruct (Z.ltb_spec 0 (delta oid data d s)); [|lia].
    destruct Hbad as [->|(p & -> & Hp)]; [done|].
    by apply negb_false_iff, Z.ltb_lt. }
  destruct (find_exists (λ sd, negb (delta_available d sd)) _ _ Hin Hneg)
    as (sd & Hfind & Hsd & Hav).
  exists sd. split; [done|]. split; [by apply negb_true_iff|].
  unfold update_order, transaction. by rewrite update_order_body_eq, Hfind.
Qed.

(** C4: for an existing order, the [deltas] update computes hold, for
    exactly the skus of the stored rows or of the new items, the new
    quantity minus the old one; update commits when every sku with a
    positive delta has that much on hand, and then each product's
    quantity is its former quantity minus the delta of its sku; when a
    positive delta is not available nothing changes.  For {A:3, B:2}
    edited to {A:5, B:0, C:1} the deltas are A:+2, B:-2, C:+1, only A and
    C face the check, and the stock moves by -2, +2 and -1. *)
Theorem update_reconciles_stock :
  (∀ oid data d,
     is_Some (orders d !! oid) →
     NoDup (order_deltas oid data d).*1 ∧
     (∀ s dl, (s, dl) ∈ order_deltas oid data d ↔
        ((∃ row, row ∈ rows_of oid d ∧ oi_product_sku row = s) ∨
         (∃ it, it ∈ items data ∧ sku it = s))
        ∧ dl = requested s (items data) - reserved oid s d) ∧
     ((∀ s, 0 < delta oid data d s →
          ∃ p, products d !! s = Some p ∧ delta oid data d s ≤ p_quantity p) →
      ∃ d', update_order oid data d = (Updated oid, d') ∧
        (∀ s p, products d !! s = Some p →
           ∃ p', products d' !! s = Some p' ∧
                 p_quantity p' = p_quantity p - delta oid data d s) ∧
        (∀ s, products d !! s = None → products d' !! s = None)) ∧
     (∀ s, 0 < delta oid data d s →
        (products d !! s = None ∨
         ∃ p, products d !! s = Some p ∧ p_quantity p < delta oid data d s) →
        ∃ msg, update_order oid data d = (BadRequest msg, d)))
  ∧ (let deltas := order_deltas "ORD0001" reconcile_intent reconcile_db in
     let '(resp, d') := update_order "ORD0001" reconcile_intent reconcile_db in
     ("A", 2) ∈ deltas ∧ ("B", -2) ∈ deltas ∧ ("C", 1) ∈ deltas ∧
     length deltas = 3%nat ∧
     List.filter (λ sd, 0 <? sd.2) deltas ≡ₚ [("A", 2); ("C", 1)] ∧
     resp = Updated "ORD0001" ∧
     p_quantity <$> products d' !! "A" = Some 0 ∧
     p_quantity <$> products d' !! "B" = Some 2 ∧
     p_quantity <$> products d' !! "C" = Some 0).
Proof.
  split.
  - intros oid data d Ho.
    split; [apply order_deltas_keys_NoDup|].
    split; [intros s dl; apply order_deltas_elem|].
    split.
    + intros Hpos. exists (updated_db oid data d).
      split; [by apply update_succeeds|]. split.
      * intros s p Hp. simpl. rewrite order_deltas_applied, Hp. simpl.
        eexists. split; [done|]. simpl. lia.
      * intros s Hp. simpl. by rewrite order_deltas_applied, Hp.
    + intros s Hlt Hbad.
      destruct (update_rejected oid data d s Hlt Hbad) as (sd & _ & _ & ->).
      eauto.
  - vm_compute.
    repeat split; try reflexivity;
      try (apply list_elem_of_In; simpl; tauto).
    apply perm_swap.
Qed.

Lemma update_reconciles_stock_witness :
  ∃ d', update_order "ORD0001" reconcile_intent reconcile_db = (Updated "ORD0001", d') ∧
        ∃ p', products d' !! "B" = Some p' ∧
              p_quantity p' = 0 - delta "ORD0001" reconcile_intent reconcile_db "B".
Proof.
  destruct update_reconciles_stock as [Hgen _].
  destruct (Hgen "ORD0001" reconcile_intent reconcile_db) as (_ & _ & Hok & _).
  - vm_compute. eexists. reflexivity.
  - destruct Hok as (d' & Hupd & Hstock & _).
    + intros s Hs. unfold delta, requested, reserved in *. simpl in *.
      repeat case_decide; subst; try discriminate; try lia.
      * exists (Product "Alpha" None 2 10). split; [reflexivity|simpl; lia].
      * exists (Product "Gamma" None 1 30). split; [reflexivity|simpl; lia].
    + exists d'. split; [exact Hupd|].
      apply (Hstock "B" (Product "Beta" None 0 20)). reflexivity.
Defined.

(** C6: for an existing order the rate update resolves is the payload's
    gstRate when the payload has one and the rate stored on the order
    otherwise; that rate is what a committed update stores and what the
    stored total, subtotal + subtotal * rate, is computed with; and the
    update does commit when the positive deltas are in stock.  GST_RATE
    plays no part. *)
Theorem update_keeps_stored_rate (oid : string) (data : order_data) (d : db) (o : order) :
  orders d !! oid = Some o →
  resolve_gst_rate oid (gstRate data) d = Ok (default (gst_rate o) (gstRate data)) d ∧
  (∀ d', update_order oid data d = (Updated oid, d') →
     ∃ o', orders d' !! oid = Some o' ∧
           gst_rate o' = default (gst_rate o) (gstRate data) ∧
           total_cost o' =
             (subtotal_of (items data)
              + subtotal_of (items data) * default (gst_rate o) (gstRate data))%Q) ∧
  ((∀ s, 0 < delta oid data d s →
      ∃ p, products d !! s = Some p ∧ delta oid data d s ≤ p_quantity p) →
   ∃ d' o', update_order oid data d = (Updated oid, d') ∧
            orders d' !! oid = Some o' ∧
            gst_rate o' = default (gst_rate o) (gstRate data)).
Proof.
  intros Ho.
  assert (effective_rate oid data d = default (gst_rate o) (gstRate data)) as Hrate.
  { unfold effective_rate. rewrite Ho. by destruct (gstRate data). }
  split; [|split].
  - unfold resolve_gst_rate. destruct (gstRate data) as [r|]; [done|].
    unfold bind, select_gst_rate. by rewrite Ho.
  - intros d'. unfold update_order, transaction.
    rewrite update_order_body_eq, Ho.
    destruct (List.find _ _); [done|]. intros [= <-].
    exists (updated_order oid data d). simpl. rewrite lookup_insert_eq.
    split; [done|]. split; [done|]. by rewrite Hrate.
  - intros Hpos. exists (updated_db oid data d), (updated_order oid data d).
    split; [apply update_succeeds; eauto|].
    simpl. rewrite lookup_insert_eq. split; [done|]. done.
Qed.

Lemma update_keeps_stored_rate_witness :
  ∃ d' o', update_order "ORD0001" reconcile_intent reconcile_db
             = (Updated "ORD0001", d') ∧
           orders d' !! "ORD0001" = Some o' ∧
           gst_rate o' = 0.18%Q.
Proof.
  destruct (update_keeps_stored_rate "ORD0001" reconcile_intent reconcile_db
              (created_order
                 (customer_order [Item "A" "Alpha" 3 10; Item "B" "Beta" 2 20]
                                 (Some 0.18%Q))))
    as (_ & _ & Hcommit).
  - reflexivity.
  - apply Hcommit. intros s Hs. unfold delta, requested, reserved in *. simpl in *.
    repeat case_decide; subst; try discriminate; try lia.
    + exists (Product "Alpha" None 2 10). split; [reflexivity|simpl; lia].
    + exists (Product "Gamma" None 1 30). split; [reflexivity|simpl; lia].
Defined.

(** ** The sequence allocator along a run *)

Lemma update_order_cases oid data d :
  update_order oid data d = (Updated oid, updated_db oid data d) ∨
  ∃ msg, update_order oid data d = (BadRequest msg, d).
Proof.
  unfold update_order, transaction. rewrite update_order_body_eq.
  destruct (List.find _ _); [right; eauto|].
  destruct (orders d !! oid); [by left|right; eauto].
Qed.

Lemma handle_create_order_cases data d :
  handle_create_order data d =
    (Created (order_id_of (last_number d + 1)), created_db data d) ∨
  ∃ msg, handle_create_order data d = (BadRequest msg, d).
Proof.
  unfold handle_create_order, transaction. rewrite create_order_body_eq.
  destruct (List.find _ _); [right; eauto|].
  destruct (orders d !! _); [right; eauto|by left].
Qed.

(** Only a committed create moves the counter, by one, and answers with
    the identifier of the new value. *)
Lemma handle_counter r d :
  match (handle r d).1 with
  | Created oid =>
      oid = order_id_of (last_number d + 1) ∧
      last_number (handle r d).2 = last_number d + 1
  | _ => last_number (handle r d).2 = last_number d
  end.
Proof.
  destruct r as [data|oid data|oid|pd|s pd|s|name|name]; simpl.
  - destruct (handle_create_order_cases data d) as [->|[msg ->]]; simpl; done.
  - destruct (update_order_cases oid data d) as [->|[msg ->]]; simpl; done.
  - rewrite delete_order_eq. simpl. by destruct (orders d !! oid).
  - unfold add_product. by destruct (products d !! pd_sku pd).
  - unfold update_product. by destruct (products d !! s).
  - unfold delete_product. by destruct (products d !! s).
  - unfold add_category. by case_decide.
  - unfold delete_category, delete_category_row. by case_decide.
Qed.

Lemma serve_cons r rs d :
  serve (r :: rs) d =
    ((handle r d).1 :: (serve rs (handle r d).2).1, (serve rs (handle r d).2).2).
Proof.
  simpl. destruct (handle r d) as [resp d']. simpl.
  by destruct (serve rs d').
Qed.

Lemma serve_created_ids rs d :
  created_ids (serve rs d).1 =
    order_id_of <$> seqZ (last_number d + 1)
                         (Z.of_nat (length (created_ids (serve rs d).1)))
  ∧ last_number (serve rs d).2 =
      last_number d + Z.of_nat (length (created_ids (serve rs d).1)).
Proof.
  revert d. induction rs as [|r rs IH]; intros d.
  - simpl. split; [done|lia].
  - rewrite serve_cons. simpl.
    pose proof (handle_counter r d) as Hc.
    destruct (IH (handle r d).2) as [Hids Hlast].
    destruct ((handle r d).1) as [oid| | | | | | |] eqn:Hresp;
      unfold created_ids in *; simpl;
      try (rewrite Hc in Hids, Hlast; split; [exact Hids|exact Hlast]).
    destruct Hc as [-> Hc]. rewrite Hc in Hids, Hlast.
    split.
    + rewrite Nat2Z.inj_succ, seqZ_cons by lia. rewrite fmap_cons. f_equal.
      rewrite Hids at 1. do 2 f_equal; lia.
    + rewrite Hlast. lia.
Qed.

(** C7: the allocator adds one to the stored counter and returns ORD
    followed by the new value, zero-padded to at least four characters
    with every digit kept (exactly four digits up to 9999, the plain
    decimal above); a create that commits leaves the counter one higher
    and answers with that identifier, so the identifiers a run of requests
    hands out are pairwise distinct and carry strictly increasing
    numbers. *)
Theorem sequence_allocator_ids :
  (∀ d, allocate_order_id d =
          Ok (order_id_of (last_number d + 1))
             (set_last_number (last_number d + 1) d))
  ∧ (∀ n, order_id_of n = "ORD" +:+ format_04d n
          ∧ (4 ≤ String.length (format_04d n))%nat)
  ∧ (∀ n, 0 ≤ n → ∃ k, format_04d n = zeros k +:+ pretty n)
  ∧ (∀ n, 0 ≤ n ≤ 9999 → String.length (format_04d n) = 4%nat)
  ∧ (∀ n, 9999 < n → format_04d n = pretty n)
  ∧ (∀ data d oid d',
       handle_create_order data d = (Created oid, d') →
       oid = order_id_of (last_number d + 1) ∧ last_number d' = last_number d + 1)
  ∧ (∀ rs d i j a b,
       (i < j)%nat →
       created_ids (serve rs d).1 !! i = Some a →
       created_ids (serve rs d).1 !! j = Some b →
       a ≠ b ∧ ∃ m n, order_number a = Some m ∧ order_number b = Some n ∧ m < n)
  ∧ order_id_of 7 = "ORD0007"
  ∧ order_id_of 9999 = "ORD9999"
  ∧ order_id_of 10000 = "ORD10000".
Proof.
  split; [done|].
  split; [intros n; split; [done|apply format_04d_width]|].
  split.
  { intros n Hn. unfold format_04d. destruct (Z.ltb_spec n 0); [lia|].
    unfold zfill. eauto. }
  split; [apply format_04d_small|].
  split; [apply format_04d_large|].
  split.
  { intros data d oid d' Hc. by apply create_commits in Hc as (_ & _ & -> & ->). }
  split; [|by vm_compute].
  intros rs d i j a b Hij Ha Hb.
  destruct (serve_created_ids rs d) as [Hids _].
  rewrite Hids in Ha, Hb. rewrite list_lookup_fmap in Ha, Hb.
  destruct (seqZ _ _ !! i) as [m|] eqn:Hm; [|done].
  destruct (seqZ _ _ !! j) as [n|] eqn:Hn; [|done].
  simpl in Ha, Hb. injection Ha as <-. injection Hb as <-.
  apply lookup_seqZ in Hm as [-> _]. apply lookup_seqZ in Hn as [-> _].
  split.
  - intros Heq%order_id_of_inj. lia.
  - do 2 eexists. rewrite !order_number_id. split; [done|]. split; [done|]. lia.
Qed.

Lemma sequence_allocator_ids_witness :
  String.length (format_04d 42) = 4%nat ∧ format_04d 123456 = "123456"
  ∧ "ORD0001" ≠ "ORD0002".
Proof.
  destruct sequence_allocator_ids as (_ & _ & _ & Hsmall & Hlarge & _ & Hrun & _).
  split; [|split].
  - apply (Hsmall 42). lia.
  - rewrite (Hlarge 123456) by lia. reflexivity.
  - apply (Hrun [PostOrder (customer_order [Item "SKU1" "Helmet" 4 100] None);
                 PostOrder (customer_order [Item "SKU1" "Helmet" 2 100] None)]
                shop 0%nat 1%nat "ORD0001" "ORD0002").
    + lia.
    + vm_compute. reflexivity.
    + vm_compute. reflexivity.
Defined.

(** ** Reading an order back *)

Lemma or_zero_eq x : (or_zero x == x)%Q.
Proof.
  unfold or_zero. destruct (Qeq_bool x 0) eqn:Hx; [|reflexivity].
  apply Qeq_bool_iff in Hx. by rewrite Hx.
Qed.

Lemma view_item_row oid it : view_item (item_row oid it) = it.
Proof. by destruct it. Qed.

Lemma filter_new_rows oid its :
  List.filter (of_order oid) (item_row oid <$> its) = item_row oid <$> its.
Proof.
  induction its as [|it its IH]; [done|].
  rewrite fmap_cons. cbn [List.filter].
  unfold of_order at 1. cbn [oi_order_id item_row].
  rewrite bool_decide_eq_true_2 by done. by rewrite IH.
Qed.

Lemma filter_no_rows oid d :
  db_consistent d = true → orders d !! oid = None → rows_of oid d = [].
Proof.
  intros Hc Hnone. unfold rows_of.
  assert (∀ row, row ∈ order_items d → of_order oid row = false) as Hall.
  { intros row Hin. unfold of_order. apply bool_decide_eq_false. intros Heq.
    destruct (db_consistent_rows d row Hc Hin) as [o Ho]. congruence. }
  induction (order_items d) as [|row rows IH]; simpl; [done|].
  rewrite Hall by left. apply IH. intros r Hr. apply Hall. by right.
Qed.

Lemma created_rows data d :
  db_consistent d = true →
  orders d !! order_id_of (last_number d + 1) = None →
  rows_of (order_id_of (last_number d + 1)) (created_db data d) =
    item_row (order_id_of (last_number d + 1)) <$> items data.
Proof.
  intros Hc Hfresh. unfold rows_of, created_db. simpl.
  rewrite List.filter_app, filter_new_rows.
  fold (rows_of (order_id_of (last_number d + 1)) d).
  by rewrite filter_no_rows.
Qed.

Lemma or_empty_id s : or_empty s = s.
Proof. unfold or_empty. by case_decide. Qed.

(** C9: on a consistent database, reading back the order a create has
    just committed returns the payload's line items (sku, name, quantity,
    price) in order, the rate the create used (the payload's gstRate, or
    GST_RATE when the payload has none) and the total the create stored
    for those items and that rate, subtotal + subtotal * rate (read
    through [total or 0.0]), together with the header fields of the
    payload; and a create whose line items are all in stock does commit
    and can be read back. *)
Theorem get_order_after_create :
  (∀ data d oid d',
     db_consistent d = true →
     handle_create_order data d = (Created oid, d') →
     ∃ v, get_order oid d' = Found v ∧
          v_id v = oid ∧
          v_items v = items data ∧
          v_gstRate v = default GST_RATE (gstRate data) ∧
          v_totalCost v =
            or_zero (subtotal_of (items data)
                     + subtotal_of (items data) * v_gstRate v)%Q ∧
          v_customerName v = customerName data ∧
          v_mobileNumber v = mobileNumber data ∧
          v_emailAddress v = emailAddress data ∧
          v_orderDate v = orderDate data ∧
          v_plannedDeliveryDate v = plannedDeliveryDate data ∧
          v_paymentMethod v = paymentMethod data ∧
          v_advanceReceived v = or_zero (default 0%Q (advanceReceived data)) ∧
          v_personalizationRequired v = personalizationRequired data ∧
          v_personalizationDetails v = default "" (personalizationDetails data))
  ∧ (∀ data d,
       db_consistent d = true →
       (∀ it, it ∈ items data →
          ∃ p, products d !! sku it = Some p ∧ quantity it ≤ p_quantity p) →
       ∃ oid d' v, handle_create_order data d = (Created oid, d') ∧
                   get_order oid d' = Found v ∧ v_items v = items data).
Proof.
  assert (∀ data d, db_consistent d = true →
            orders d !! order_id_of (last_number d + 1) = None →
            ∃ v, get_order (order_id_of (last_number d + 1)) (created_db data d)
                   = Found v ∧
                 v_id v = order_id_of (last_number d + 1) ∧
                 v_items v = items data ∧
                 v_gstRate v = default GST_RATE (gstRate data) ∧
                 v_totalCost v =
                   or_zero (subtotal_of (items data)
                            + subtotal_of (items data) * v_gstRate v)%Q ∧
                 v_customerName v = customerName data ∧
                 v_mobileNumber v = mobileNumber data ∧
                 v_emailAddress v = emailAddress data ∧
                 v_orderDate v = orderDate data ∧
                 v_plannedDeliveryDate v = plannedDeliveryDate data ∧
                 v_paymentMethod v = paymentMethod data ∧
                 v_advanceReceived v = or_zero (default 0%Q (advanceReceived data)) ∧
                 v_personalizationRequired v = personalizationRequired data ∧
                 v_personalizationDetails v = default "" (personalizationDetails data))
    as Hread.
  { intros data d Hc Hfresh.
    pose proof (created_rows data d Hc Hfresh) as Hrows. unfold rows_of in Hrows.
    unfold get_order. rewrite Hrows.
    replace (orders (created_db data d) !! order_id_of (last_number d + 1))
      with (Some (created_order data))
      by (unfold created_db; simpl; by rewrite lookup_insert_eq).
    eexists. split; [reflexivity|]. simpl.
    split; [done|]. split.
    { rewrite <- list_fmap_compose.
      rewrite <- (list_fmap_id (items data)) at 2.
      apply list_fmap_ext. intros i it _. apply view_item_row. }
    repeat split; try done.
    - by destruct (personalizationRequired data).
    - apply or_empty_id. }
  split.
  - intros data d oid d' Hc Hcreate.
    apply create_commits in Hcreate as (_ & Hfresh & -> & ->).
    by apply Hread.
  - intros data d Hc Hall.
    pose proof (next_id_fresh d Hc) as Hfresh.
    destruct (Hread data d Hc Hfresh) as (v & Hv & _ & Hitems & _).
    exists (order_id_of (last_number d + 1)), (created_db data d), v.
    split; [|done].
    apply create_succeeds; [|done].
    intros it Hin. destruct (Hall it Hin) as (p & Hp & Hle).
    unfold available. rewrite Hp. apply negb_true_iff, Z.ltb_ge. done.
Qed.

Lemma get_order_after_create_witness :
  ∃ oid d' v,
    handle_create_order (customer_order [Item "SKU1" "Helmet" 4 100] None) shop
      = (Created oid, d') ∧
    get_order oid d' = Found v ∧
    v_items v = [Item "SKU1" "Helmet" 4 100].
Proof.
  destruct get_order_after_create as [_ Hcommit].
  apply (Hcommit (customer_order [Item "SKU1" "Helmet" 4 100] None) shop).
  - reflexivity.
  - intros it Hin. simpl in Hin. apply list_elem_of_singleton in Hin. subst it.
    exists (Product "Helmet" (Some "Helmets") 10 100). split; [reflexivity|].
    simpl. lia.
Defined.

(** ** Consistency is established by init_db and kept by every handler *)

Lemma init_db_consistent : db_consistent init_db = true.
Proof. reflexivity. Qed.

Lemma rest_rows oid d row :
  row ∈ List.filter (λ row, negb (of_order oid row)) (order_items d) →
  row ∈ order_items d ∧ oi_order_id row ≠ oid.
Proof.
  intros Hin. apply list_elem_of_In, filter_In in Hin as [Hin Hne].
  split; [by apply list_elem_of_In|].
  apply negb_true_iff in Hne. unfold of_order in Hne.
  by apply bool_decide_eq_false in Hne.
Qed.

Lemma created_db_consistent data d :
  db_consistent d = true → db_consistent (created_db data d) = true.
Proof.
  intros Hc. apply db_consistent_intro; simpl.
  - intros oid Hin. destruct (decide (oid = order_id_of (last_number d + 1))) as [->|Hne].
    + unfold issued_by. rewrite order_number_id. by apply bool_decide_eq_true.
    + rewrite lookup_insert_ne in Hin by done.
      eapply issued_by_mono; [|by apply db_consistent_issued]. lia.
  - intros row [Hin|Hin]%elem_of_app.
    + apply lookup_insert_is_Some'. right. by apply db_consistent_rows.
    + apply list_elem_of_fmap in Hin as (it & -> & _). simpl.
      rewrite lookup_insert_eq. eauto.
Qed.

Lemma updated_db_consistent oid data d :
  db_consistent d = true → is_Some (orders d !! oid) →
  db_consistent (updated_db oid data d) = true.
Proof.
  intros Hc Ho. apply db_consistent_intro; simpl.
  - intros k Hin. apply db_consistent_issued; [done|].
    destruct (decide (oid = k)) as [<-|Hne]; [done|].
    by rewrite lookup_insert_ne in Hin.
  - intros row [Hin|Hin]%elem_of_app.
    + apply rest_rows in Hin as [Hin _].
      apply lookup_insert_is_Some'. right. by apply db_consistent_rows.
    + apply list_elem_of_fmap in Hin as (it & -> & _). simpl.
      rewrite lookup_insert_eq. eauto.
Qed.

Lemma deleted_db_consistent oid d :
  db_consistent d = true → db_consistent (deleted_db oid d) = true.
Proof.
  intros Hc. apply db_consistent_intro; simpl.
  - intros k Hin. apply db_consistent_issued; [done|].
    destruct (decide (oid = k)) as [<-|Hne].
    + rewrite lookup_delete_eq in Hin. by destruct Hin.
    + by rewrite lookup_delete_ne in Hin.
  - intros row Hin. apply rest_rows in Hin as [Hin Hne].
    rewrite lookup_delete_ne by done. by apply db_consistent_rows.
Qed.

Lemma handle_consistent r d :
  db_consistent d = true → db_consistent (handle r d).2 = true.
Proof.
  intros Hc. destruct r as [data|oid data|oid|pd|s pd|s|name|name]; simpl.
  - destruct (handle_create_order_cases data d) as [->|[msg ->]]; simpl; [|done].
    by apply created_db_consistent.
  - unfold update_order, transaction. rewrite update_order_body_eq.
    destruct (List.find _ _); [done|].
    destruct (orders d !! oid) eqn:Ho; [|done]. simpl.
    apply updated_db_consistent; eauto.
  - rewrite delete_order_eq. simpl. by apply deleted_db_consistent.
  - unfold add_product. by destruct (products d !! pd_sku pd).
  - unfold update_product. by destruct (products d !! s).
  - unfold delete_product. by destruct (products d !! s).
  - unfold add_category. by case_decide.
  - unfold delete_category, delete_category_row. by case_decide.
Qed.

(** Every database the endpoints can reach from a fresh one is consistent. *)
Lemma serve_consistent rs d :
  db_consistent d = true → db_consistent (serve rs d).2 = true.
Proof.
  revert d. induction rs as [|r rs IH]; intros d Hc; [done|].
  rewrite serve_cons. simpl. by apply IH, handle_consistent.
Qed.

(** ** Stock levels under the order operations *)

(** Update keeps every quantity non-negative: the check sees the per-sku
    total of the new items. *)
Lemma update_keeps_stock_nonnegative oid data d :
  (∀ s p, products d !! s = Some p → 0 ≤ p_quantity p) →
  ∀ s p, products (update_order oid data d).2 !! s = Some p → 0 ≤ p_quantity p.
Proof.
  intros Hnn s p'. unfold update_order, transaction.
  rewrite update_order_body_eq.
  destruct (List.find _ _) eqn:Hfind; [apply Hnn|].
  destruct (orders d !! oid); [|apply Hnn]. simpl.
  rewrite order_deltas_applied.
  destruct (products d !! s) as [p|] eqn:Hp; [|done]. simpl. intros [= <-]. simpl.
  pose proof (Hnn s p Hp) as Hp0.
  destruct (Z.ltb_spec 0 (delta oid data d s)) as [Hpos|]; [|lia].
  assert ((s, delta oid data d s) ∈ order_deltas oid data d) as Hin.
  { apply order_deltas_elem. split; [|done].
    destruct (decide (s ∈ dom (old_items_of (rows_of oid d))
                      ∪ dom (new_map_of (items data)))) as [Hd|Hd].
    - by rewrite elem_of_union, old_items_dom, new_map_dom in Hd.
    - rewrite elem_of_union, old_items_dom, new_map_dom in Hd.
      apply delta_outside in Hd. lia. }
  eapply find_none in Hfind; [|by apply list_elem_of_In].
  apply negb_false_iff in Hfind. unfold delta_available in Hfind. simpl in Hfind.
  destruct (Z.ltb_spec 0 (delta oid data d s)); [|lia].
  rewrite Hp in Hfind. apply negb_true_iff, Z.ltb_ge in Hfind. lia.
Qed.

(** C1: create checks each line item against the whole on-hand quantity
    and then subtracts every line, so an intent that lists a sku twice
    can commit and leave a negative quantity: from 10 on hand, two lines
    of 6 are both accepted and the product ends at -2. *)
Theorem create_duplicate_sku_goes_negative :
  (∀ s p, products shop !! s = Some p → 0 ≤ p_quantity p) ∧
  ∃ d',
    handle_create_order
      (customer_order [Item "SKU1" "Helmet" 6 100; Item "SKU1" "Helmet" 6 100] None)
      shop = (Created "ORD0001", d') ∧
    products d' !! "SKU1" = Some (Product "Helmet" (Some "Helmets") (-2) 100).
Proof.
  split.
  - intros s p Hp. unfold shop in Hp. simpl in Hp.
    apply lookup_singleton_Some in Hp as [_ <-]. simpl. lia.
  - eexists. split; [vm_compute; reflexivity|]. vm_compute. reflexivity.
Qed.

(** Delete adds the stored quantities back without looking at their
    sign: a run of three requests takes SKU1 from 10 to -2. *)
Lemma delete_negative_row_goes_negative :
  products
    (serve [PostOrder (customer_order [Item "SKU1" "Helmet" (-5) 100] None);
            PostOrder (customer_order [Item "SKU1" "Helmet" 12 100] None);
            DeleteOrder "ORD0001"] shop).2 !! "SKU1"
  = Some (Product "Helmet" (Some "Helmets") (-2) 100).
Proof. vm_compute. reflexivity. Qed.

(** ** Deleting a category *)

(** With enforcement on, the schema's ON DELETE SET NULL clears the
    reference. *)
Lemma delete_category_row_enforced :
  products (delete_category_row init_db_connection "Helmets" shop).2 !! "SKU1"
  = Some (Product "Helmet" None 10 100).
Proof. vm_compute. reflexivity. Qed.

(** C8: [delete_category] runs its DELETE on a connection that has not
    switched foreign keys on, so the products table is returned as it
    was: no product row is deleted, and a product that referenced the
    deleted category still carries its name. *)
Theorem delete_category_keeps_reference :
  (∀ name d,
     products (delete_category name d).2 = products d ∧
     name ∉ categories (delete_category name d).2) ∧
  (delete_category "Helmets" shop).1 = Accepted ∧
  products (delete_category "Helmets" shop).2 !! "SKU1"
    = Some (Product "Helmet" (Some "Helmets") 10 100).
Proof.
  split.
  - intros name d. unfold delete_category, delete_category_row.
    case_decide as Hin; simpl; [|done].
    split; [done|]. apply not_elem_of_difference. right.
    by apply elem_of_singleton.
  - split; by vm_compute.
Qed.

(** ** Negative line-item quantities *)

Lemma requested_app s l1 l2 :
  requested s (l1 ++ l2)%list = requested s l1 + requested s l2.
Proof.
  unfold requested. induction l1 as [|it l1 IH]; simpl; [done|].
  rewrite IH. case_decide; lia.
Qed.

Lemma requested_absent s l :
  (∀ it, it ∈ l → sku it ≠ s) → requested s l = 0.
Proof.
  unfold requested. induction l as [|it l IH]; intros Hall; simpl; [done|].
  rewrite decide_False by (apply Hall; left).
  apply IH. intros it' Hin. apply Hall. by right.
Qed.

(** A negative line on an existing product does not make the create
    commit by itself: a second line naming an unknown sku aborts the
    whole intent. *)
Lemma create_negative_line_counterexample :
  let negative := Item "SKU1" "Helmet" (-2) 100 in
  let data := customer_order [negative; Item "SKU9" "Gloves" 1 50] None in
  negative ∈ items data ∧
  is_Some (products shop !! sku negative) ∧
  quantity negative < 0 ∧
  handle_create_order data shop =
    (BadRequest "Product with SKU 'SKU9' not found.", shop) ∧
  ¬ ∃ oid d', handle_create_order data shop = (Created oid, d').
Proof.
  assert (handle_create_order
            (customer_order [Item "SKU1" "Helmet" (-2) 100;
                             Item "SKU9" "Gloves" 1 50] None) shop
          = (BadRequest "Product with SKU 'SKU9' not found.", shop)) as Heq
    by (vm_compute; reflexivity).
  simpl. split; [left|]. split; [eexists; vm_compute; reflexivity|]. split; [lia|].
  split; [exact Heq|]. intros (oid & d' & Hc). rewrite Heq in Hc. discriminate.
Qed.

(** C10 (as amended): create has no test on the sign of a quantity.  A
    line item with a negative quantity on an existing product whose
    on-hand quantity is not negative passes the availability check; when
    every line item of the intent passes it, on a consistent database,
    the order and one row per line item are stored, and the product ends
    at its former quantity minus the sum of the quantities requested for
    its sku, which is an increase by the absolute value of the negative
    quantity when no other line names that sku. *)
Theorem create_accepts_negative_quantity
    (data : order_data) (d : db) (it : item) (p : product) :
  it ∈ items data →
  products d !! sku it = Some p →
  quantity it < 0 →
  (0 ≤ p_quantity p → validate_item it d = Ok tt d) ∧
  (db_consistent d = true →
   (∀ it', it' ∈ items data → available d it' = true) →
   ∃ oid d',
     handle_create_order data d = (Created oid, d') ∧
     is_Some (orders d' !! oid) ∧
     (∀ it', it' ∈ items data → item_row oid it' ∈ order_items d') ∧
     ∃ p', products d' !! sku it = Some p' ∧
           p_quantity p' = p_quantity p - requested (sku it) (items data) ∧
           (∀ l1 l2 : list item, items data = (l1 ++ it :: l2)%list →
              (∀ it', it' ∈ (l1 ++ l2)%list → sku it' ≠ sku it) →
              p_quantity p' = p_quantity p + Z.abs (quantity it))).
Proof.
  intros Hin Hp Hneg. split.
  - intros H0. apply validate_item_pass. unfold available. rewrite Hp.
    apply negb_true_iff, Z.ltb_ge. lia.
  - intros Hc Hall.
    exists (order_id_of (last_number d + 1)), (created_db data d).
    split; [apply create_succeeds; [done|by apply next_id_fresh]|].
    split; [simpl; rewrite lookup_insert_eq; eauto|].
    split.
    { intros it' Hin'. simpl. apply elem_of_app. right.
      apply list_elem_of_fmap. eauto. }
    simpl. rewrite consume_lookup, Hp. simpl.
    eexists. split; [done|]. simpl. split; [lia|].
    intros l1 l2 Hitems Hothers. rewrite Hitems.
    rewrite requested_app.
    change (it :: l2) with ([it] ++ l2)%list. rewrite requested_app.
    rewrite (requested_absent _ l1), (requested_absent _ l2).
    + unfold requested. simpl. rewrite decide_True by done. lia.
    + intros it' Hin'. apply Hothers, elem_of_app. by right.
    + intros it' Hin'. apply Hothers, elem_of_app. by left.
Qed.

Lemma create_accepts_negative_quantity_witness :
  ∃ oid d',
    handle_create_order (customer_order [Item "SKU1" "Helmet" (-2) 100] None) shop
      = (Created oid, d') ∧
    ∃ p', products d' !! "SKU1" = Some p' ∧ p_quantity p' = 10 + 2.
Proof.
  destruct (create_accepts_negative_quantity
              (customer_order [Item "SKU1" "Helmet" (-2) 100] None) shop
              (Item "SKU1" "Helmet" (-2) 100)
              (Product "Helmet" (Some "Helmets") 10 100))
    as [_ Hcreate].
  - simpl. left.
  - reflexivity.
  - simpl. lia.
  - destruct Hcreate as (oid & d' & Hc & _ & _ & p' & Hp' & _ & Hsole).
    + reflexivity.
    + intros it' Hin'. simpl in Hin'.
      apply list_elem_of_singleton in Hin'. subst it'. reflexivity.
    + exists oid, d'. split; [exact Hc|]. exists p'. split; [exact Hp'|].
      apply (Hsole [] []); [reflexivity|].
      intros it' Hin'. simpl in Hin'. by apply not_elem_of_nil in Hin'.
Defined.

(** * Further properties of the handlers *)

(** ** Reachable databases *)

(** X1: in every database the endpoints can reach from the one [init_db]
    creates, each row of order_items belongs to a stored order, no
    identifier above the counter is stored, and the counter is not
    negative. *)
Theorem reachable_db_invariants (rs : list request) :
  let d := (serve rs init_db).2 in
  (∀ row, row ∈ order_items d → is_Some (orders d !! oi_order_id row)) ∧
  (∀ n, last_number d < n → orders d !! order_id_of n = None) ∧
  0 ≤ last_number d.
Proof.
  simpl.
  assert (db_consistent (serve rs init_db).2 = true) as Hc
    by apply serve_consistent, init_db_consistent.
  split; [intros row; by apply db_consistent_rows|]. split.
  - intros n Hn. destruct (orders _ !! order_id_of n) eqn:Ho; [|done].
    assert (issued_by (last_number (serve rs init_db).2) (order_id_of n) = true) as Hi
      by (apply db_consistent_issued; eauto).
    unfold issued_by in Hi. rewrite order_number_id in Hi.
    apply bool_decide_eq_true in Hi. lia.
  - destruct (serve_created_ids rs init_db) as [_ ->]. simpl. lia.
Qed.

(** X2: the identifiers a run of requests hands out are those of
    consecutive counter values, starting one above the counter the run
    started with, and the counter ends that many values higher: a
    rejected create uses up no number. *)
Theorem issued_ids_are_consecutive (rs : list request) (d : db) :
  created_ids (serve rs d).1 =
    order_id_of <$> seqZ (last_number d + 1)
                         (Z.of_nat (length (created_ids (serve rs d).1)))
  ∧ last_number (serve rs d).2 =
      last_number d + Z.of_nat (length (created_ids (serve rs d).1)).
Proof. apply serve_created_ids. Qed.

(** ** All or nothing *)

(** X3: create answers 201 or 400 and update answers 200 or 400; with a
    400 the database is the one the handler was given. *)
Theorem order_writes_are_atomic :
  (∀ data d resp d',
     handle_create_order data d = (resp, d') →
     (∃ oid, resp = Created oid) ∨ ((∃ msg, resp = BadRequest msg) ∧ d' = d)) ∧
  (∀ oid data d resp d',
     update_order oid data d = (resp, d') →
     resp = Updated oid ∨ ((∃ msg, resp = BadRequest msg) ∧ d' = d)).
Proof.
  split.
  - intros data d resp d' H.
    destruct (handle_create_order_cases data d) as [Hc|[msg Hc]];
      rewrite Hc in H; injection H as <- <-; eauto.
  - intros oid data d resp d' H.
    destruct (update_order_cases oid data d) as [Hc|[msg Hc]];
      rewrite Hc in H; injection H as <- <-; eauto.
Qed.

Lemma order_writes_are_atomic_witness :
  (∃ oid, BadRequest "Product with SKU 'SKU9' not found." = Created oid) ∨
  ((∃ msg, BadRequest "Product with SKU 'SKU9' not found." = BadRequest msg)
   ∧ shop = shop).
Proof.
  destruct order_writes_are_atomic as [Hcreate _].
  apply (Hcreate (customer_order [Item "SKU1" "Helmet" 1 100;
                                  Item "SKU9" "Gloves" 1 50] None) shop).
  vm_compute. reflexivity.
Defined.

(** ** Orders that are not there *)

Lemma positive_deltas_pass oid data d :
  (∀ s, 0 < delta oid data d s →
     ∃ p, products d !! s = Some p ∧ delta oid data d s ≤ p_quantity p) →
  List.find (λ sd, negb (delta_available d sd)) (order_deltas oid data d) = None.
Proof.
  intros Hpos.
  destruct (List.find _ _) as [[s dl]|] eqn:Hfind; [|done].
  apply find_some in Hfind as [Hin Hbad].
  apply list_elem_of_In, order_deltas_elem in Hin as [_ ->].
  apply negb_true_iff in Hbad. unfold delta_available in Hbad. simpl in Hbad.
  destruct (Z.ltb_spec 0 (delta oid data d s)) as [Hlt|]; [|done].
  destruct (Hpos s Hlt) as (p & Hp & Hle). rewrite Hp in Hbad.
  apply negb_false_iff, Z.ltb_lt in Hbad. lia.
Qed.

Lemma update_missing_refused oid data d :
  orders d !! oid = None → ∃ msg, update_order oid data d = (BadRequest msg, d).
Proof.
  intros Ho. unfold update_order, transaction. rewrite update_order_body_eq, Ho.
  destruct (List.find _ _); eauto.
Qed.

(** X4: update of an identifier that is not stored answers 400, never
    404, and changes nothing; when the new items pass the stock check the
    error text is "Order not found". *)
Theorem update_of_missing_order (oid : string) (data : order_data) (d : db) :
  orders d !! oid = None →
  (∃ msg, update_order oid data d = (BadRequest msg, d)) ∧
  ((∀ s, 0 < delta oid data d s →
      ∃ p, products d !! s = Some p ∧ delta oid data d s ≤ p_quantity p) →
   update_order oid data d = (BadRequest "Order not found", d)).
Proof.
  intros Ho. split; [by apply update_missing_refused|].
  intros Hpos. unfold update_order, transaction.
  by rewrite update_order_body_eq, Ho, positive_deltas_pass.
Qed.

Lemma update_of_missing_order_witness :
  update_order "ORD0042" (customer_order [] None) shop
    = (BadRequest "Order not found", shop).
Proof.
  destruct (update_of_missing_order "ORD0042" (customer_order [] None) shop)
    as [_ H].
  - reflexivity.
  - apply H. intros s Hs. unfold delta, requested, reserved in Hs.
    simpl in Hs. lia.
Defined.

(** X5: on a consistent database a 404 from delete_order means nothing
    was written; delete_order answers 200 or 404, never 400. *)
Theorem delete_not_found_changes_nothing (oid : string) (d : db) :
  ((delete_order oid d).1 = Deleted ∨ (delete_order oid d).1 = NotFound) ∧
  (db_consistent d = true →
   (delete_order oid d).1 = NotFound → (delete_order oid d).2 = d).
Proof.
  split.
  - rewrite delete_order_eq. simpl. destruct (orders d !! oid); eauto.
  - intros Hc H404. rewrite delete_order_eq in H404. simpl in H404.
    destruct (orders d !! oid) eqn:Ho; [done|].
    by rewrite delete_order_absent by (by try apply filter_no_rows).
Qed.

Lemma delete_not_found_changes_nothing_witness :
  (delete_order "ORD0042" shop).2 = shop.
Proof.
  destruct (delete_not_found_changes_nothing "ORD0042" shop) as [_ H].
  apply H.
  - reflexivity.
  - vm_compute. reflexivity.
Defined.

(** ** Reading back after an update *)

Lemma filter_rest_of_new_rows oid its :
  List.filter (λ row, negb (of_order oid row)) (item_row oid <$> its) = [].
Proof.
  induction its as [|it its IH]; [done|].
  rewrite fmap_cons. cbn [List.filter].
  unfold of_order at 1. cbn [oi_order_id item_row].
  rewrite bool_decide_eq_true_2 by done. exact IH.
Qed.

Lemma filter_rest_idem oid (rows : list order_item) :
  List.filter (λ row, negb (of_order oid row))
    (List.filter (λ row, negb (of_order oid row)) rows)
  = List.filter (λ row, negb (of_order oid row)) rows.
Proof.
  induction rows as [|row rows IH]; simpl; [done|].
  destruct (of_order oid row) eqn:Hr; simpl; [done|]. by rewrite Hr, IH.
Qed.

Lemma updated_rows oid data d :
  rows_of oid (updated_db oid data d) = item_row oid <$> items data.
Proof.
  unfold rows_of, updated_db. simpl.
  by rewrite List.filter_app, filter_rest_none, filter_new_rows.
Qed.

Lemma update_commits oid data d d' :
  update_order oid data d = (Updated oid, d') →
  is_Some (orders d !! oid) ∧ d' = updated_db oid data d.
Proof.
  unfold update_order, transaction. rewrite update_order_body_eq.
  destruct (List.find _ _); [done|].
  destruct (orders d !! oid); [|done]. intros [= <-]. eauto.
Qed.

(** X6: reading an order back right after a committed update returns the
    payload's line items in order, the rate the update resolved (the
    payload's, else the one stored before), the total the update stored,
    subtotal + subtotal * rate (read through [total or 0.0]), and every
    header field of the payload: names, dates, advance received,
    personalization flag and details, with an empty payment method read
    back as null; and an update whose positive deltas are in stock does
    commit and can be read back. *)
Theorem get_order_after_update :
  (∀ oid data d d',
     update_order oid data d = (Updated oid, d') →
     ∃ o v, orders d !! oid = Some o ∧ get_order oid d' = Found v ∧
            v_id v = oid ∧
            v_items v = items data ∧
            v_gstRate v = default (gst_rate o) (gstRate data) ∧
            v_totalCost v =
              or_zero (subtotal_of (items data)
                       + subtotal_of (items data) * v_gstRate v)%Q ∧
            v_customerName v = customerName data ∧
            v_mobileNumber v = mobileNumber data ∧
            v_emailAddress v = emailAddress data ∧
            v_orderDate v = orderDate data ∧
            v_plannedDeliveryDate v = plannedDeliveryDate data ∧
            v_paymentMethod v = or_none (paymentMethod data) ∧
            v_advanceReceived v = or_zero (default 0%Q (advanceReceived data)) ∧
            v_personalizationRequired v = personalizationRequired data ∧
            v_personalizationDetails v = default "" (personalizationDetails data))
  ∧ (∀ oid data d o,
       orders d !! oid = Some o →
       (∀ s, 0 < delta oid data d s →
          ∃ p, products d !! s = Some p ∧ delta oid data d s ≤ p_quantity p) →
       ∃ d' v, update_order oid data d = (Updated oid, d') ∧
               get_order oid d' = Found v ∧ v_items v = items data).
Proof.
  assert (∀ oid data d o, orders d !! oid = Some o →
            ∃ v, get_order oid (updated_db oid data d) = Found v ∧
                 v_id v = oid ∧
                 v_items v = items data ∧
                 v_gstRate v = default (gst_rate o) (gstRate data) ∧
                 v_totalCost v =
                   or_zero (subtotal_of (items data)
                            + subtotal_of (items data) * v_gstRate v)%Q ∧
                 v_customerName v = customerName data ∧
                 v_mobileNumber v = mobileNumber data ∧
                 v_emailAddress v = emailAddress data ∧
                 v_orderDate v = orderDate data ∧
                 v_plannedDeliveryDate v = plannedDeliveryDate data ∧
                 v_paymentMethod v = or_none (paymentMethod data) ∧
                 v_advanceReceived v = or_zero (default 0%Q (advanceReceived data)) ∧
                 v_personalizationRequired v = personalizationRequired data ∧
                 v_personalizationDetails v = default "" (personalizationDetails data))
    as Hread.
  { intros oid data d o Ho.
    pose proof (updated_rows oid data d) as Hrows. unfold rows_of in Hrows.
    unfold get_order. rewrite Hrows.
    replace (orders (updated_db oid data d) !! oid)
      with (Some (updated_order oid data d))
      by (unfold updated_db; simpl; by rewrite lookup_insert_eq).
    assert (effective_rate oid data d = default (gst_rate o) (gstRate data)) as Hrate.
    { unfold effective_rate. rewrite Ho. by destruct (gstRate data). }
    eexists. split; [reflexivity|]. simpl.
    split; [done|]. split.
    { rewrite <- list_fmap_compose.
      rewrite <- (list_fmap_id (items data)) at 2.
      apply list_fmap_ext. intros i it _. apply view_item_row. }
    repeat split; try done.
    - by destruct (personalizationRequired data).
    - apply or_empty_id. }
  split.
  - intros oid data d d' Hupd. apply update_commits in Hupd as [[o Ho] ->].
    exists o. destruct (Hread oid data d o Ho) as (v & Hv & Hrest).
    exists v. split; [done|]. split; [done|]. exact Hrest.
  - intros oid data d o Ho Hpos.
    destruct (Hread oid data d o Ho) as (v & Hv & _ & Hitems & _).
    exists (updated_db oid data d), v. split; [|done].
    apply update_succeeds; eauto.
Qed.

Lemma get_order_after_update_witness :
  ∃ o v, orders reconcile_db !! "ORD0001" = Some o ∧
         get_order "ORD0001" (updated_db "ORD0001" reconcile_intent reconcile_db)
           = Found v ∧
         v_items v = items reconcile_intent.
Proof.
  destruct get_order_after_update as [Hread _].
  destruct (Hread "ORD0001" reconcile_intent reconcile_db
              (updated_db "ORD0001" reconcile_intent reconcile_db))
    as (o & v & Ho & Hv & _ & Hitems & _).
  - vm_compute. reflexivity.
  - exists o, v. split; [exact Ho|]. split; [exact Hv|exact Hitems].
Defined.

(** ** Create, delete and update composed *)

Lemma reserved_of_new_rows oid s its :
  foldr (λ row acc, if decide (oi_product_sku row = s)
                    then oi_quantity row + acc else acc) 0 (item_row oid <$> its)
  = requested s its.
Proof.
  unfold requested. induction its as [|it its IH]; [done|].
  rewrite fmap_cons. simpl. by rewrite IH.
Qed.

(** X7: on a consistent database, deleting the order a create has just
    committed answers 200 and gives back the database the create started
    from, except that the counter stays one higher. *)
Theorem create_then_delete_restores (data : order_data) (d : db) (oid : string) (d' : db) :
  db_consistent d = true →
  handle_create_order data d = (Created oid, d') →
  delete_order oid d' = (Deleted, set_last_number (last_number d + 1) d).
Proof.
  intros Hc Hcreate.
  apply create_commits in Hcreate as (_ & Hfresh & -> & ->).
  rewrite delete_order_eq.
  replace (orders (created_db data d) !! order_id_of (last_number d + 1))
    with (Some (created_order data))
    by (unfold created_db; simpl; by rewrite lookup_insert_eq).
  f_equal. unfold deleted_db. rewrite created_rows by done.
  unfold created_db, set_last_number. simpl. f_equal.
  - apply map_eq. intros s.
    rewrite restock_lookup, consume_lookup, reserved_of_new_rows.
    destruct (products d !! s) as [p|]; simpl; [|done].
    rewrite add_quantity_add.
    replace (- requested s (items data) + requested s (items data)) with 0 by lia.
    by rewrite add_quantity_0.
  - rewrite delete_insert_eq. by apply delete_absent.
  - rewrite List.filter_app, filter_rest_of_new_rows, app_nil_r.
    apply filter_none_rest. by apply (filter_no_rows _ d).
Qed.

Lemma create_then_delete_restores_witness :
  delete_order "ORD0001"
    (created_db (customer_order [Item "SKU1" "Helmet" 4 100] None) shop)
  = (Deleted, set_last_number 1 shop).
Proof.
  apply (create_then_delete_restores
           (customer_order [Item "SKU1" "Helmet" 4 100] None) shop "ORD0001").
  - reflexivity.
  - vm_compute. reflexivity.
Defined.

Lemma db_ext (d1 d2 : db) :
  categories d1 = categories d2 → products d1 = products d2 →
  last_number d1 = last_number d2 → orders d1 = orders d2 →
  order_items d1 = order_items d2 → d1 = d2.
Proof. destruct d1, d2; simpl. by intros -> -> -> -> ->. Qed.

(** X8: sending the payload of a committed update once more commits
    again and writes the same database: no stock moves the second time. *)
Theorem update_same_payload_twice (oid : string) (data : order_data) (d d1 : db) :
  update_order oid data d = (Updated oid, d1) →
  update_order oid data d1 = (Updated oid, d1).
Proof.
  intros Hupd. apply update_commits in Hupd as [[o Ho] ->].
  assert (∀ s, delta oid data (updated_db oid data d) s = 0) as Hzero.
  { intros s. unfold delta, reserved.
    fold (rows_of oid (updated_db oid data d)).
    rewrite updated_rows, reserved_of_new_rows. lia. }
  rewrite update_succeeds.
  - f_equal. unfold updated_db at 1.
    assert (effective_rate oid data (updated_db oid data d)
            = effective_rate oid data d) as Hrate.
    { unfold effective_rate. destruct (gstRate data) as [r|] eqn:Hr; [done|].
      simpl. rewrite lookup_insert_eq. simpl. unfold effective_rate.
      by rewrite Hr. }
    assert (updated_order oid data (updated_db oid data d)
            = updated_order oid data d) as Hord
      by (unfold updated_order; by rewrite Hrate).
    rewrite Hord. apply db_ext; simpl; [done| |done| |].
    + change (apply_deltas (order_deltas oid data d) (products d))
        with (products (updated_db oid data d)).
      apply map_eq. intros s. rewrite order_deltas_applied, Hzero.
      destruct (products (updated_db oid data d) !! s); simpl; [|done].
      by rewrite add_quantity_0.
    + by rewrite insert_insert_eq.
    + rewrite List.filter_app, filter_rest_idem, filter_rest_of_new_rows.
      by rewrite app_nil_r.
  - simpl. rewrite lookup_insert_eq. eauto.
  - intros s Hs. rewrite Hzero in Hs. lia.
Qed.

Lemma update_same_payload_twice_witness :
  update_order "ORD0001" reconcile_intent
    (updated_db "ORD0001" reconcile_intent reconcile_db)
  = (Updated "ORD0001", updated_db "ORD0001" reconcile_intent reconcile_db).
Proof.
  apply (update_same_payload_twice "ORD0001" reconcile_intent reconcile_db).
  vm_compute. reflexivity.
Defined.

(** ** The stock ledger *)

Lemma sum_rows_app s (l1 l2 : list order_item) :
  sum_rows s (l1 ++ l2) = sum_rows s l1 + sum_rows s l2.
Proof.
  unfold sum_rows. induction l1 as [|row l1 IH]; simpl; [done|].
  rewrite IH. case_decide; lia.
Qed.

Lemma sum_rows_split s (f : order_item → bool) (l : list order_item) :
  sum_rows s l =
    sum_rows s (List.filter f l) + sum_rows s (List.filter (λ row, negb (f row)) l).
Proof.
  unfold sum_rows. induction l as [|row l IH]; simpl; [done|].
  rewrite IH. destruct (f row); simpl; case_decide; lia.
Qed.

Lemma reserved_sum_rows oid s d : reserved oid s d = sum_rows s (rows_of oid d).
Proof. reflexivity. Qed.

Lemma sum_rows_new oid s its : sum_rows s (item_row oid <$> its) = requested s its.
Proof. apply reserved_of_new_rows. Qed.

Lemma total_reserved_split oid s d :
  total_reserved s d =
    reserved oid s d
    + sum_rows s (List.filter (λ row, negb (of_order oid row)) (order_items d)).
Proof.
  unfold total_reserved. rewrite (sum_rows_split s (of_order oid)). done.
Qed.

Lemma handle_conserves r d s p :
  is_order_request r = true →
  products d !! s = Some p →
  ∃ p', products (handle r d).2 !! s = Some p' ∧
        p_quantity p' + total_reserved s (handle r d).2
          = p_quantity p + total_reserved s d ∧
        p_name p' = p_name p ∧ p_category p' = p_category p ∧
        p_price p' = p_price p.
Proof.
  intros Hr Hp. destruct r as [data|oid data|oid| | | | |]; try done; simpl.
  - destruct (handle_create_order_cases data d) as [->|[msg ->]]; simpl;
      [|by exists p].
    rewrite consume_lookup, Hp. simpl. eexists. split; [done|]. simpl.
    split; [|done].
    unfold total_reserved. simpl. rewrite sum_rows_app, sum_rows_new. lia.
  - destruct (update_order_cases oid data d) as [->|[msg ->]]; simpl;
      [|by exists p].
    rewrite order_deltas_applied, Hp. simpl. eexists. split; [done|]. simpl.
    split; [|done].
    rewrite (total_reserved_split oid s d).
    unfold total_reserved. simpl. rewrite sum_rows_app, sum_rows_new.
    unfold delta. lia.
  - rewrite delete_order_eq. simpl.
    rewrite restock_lookup, Hp. simpl. eexists. split; [done|]. simpl.
    split; [|done].
    rewrite (total_reserved_split oid s d). unfold total_reserved. simpl.
    rewrite reserved_sum_rows. unfold sum_rows. lia.
Qed.

(** X9: along any run of create, update and delete requests, a product
    keeps its name, category and price, and its on-hand quantity plus the
    quantities all stored order rows hold for its sku stays the same:
    what an order takes from the stock is what its rows record, and it is
    given back when the rows go. *)
Theorem stock_plus_reserved_is_conserved
    (rs : list request) (d : db) (s : string) (p : product) :
  forallb is_order_request rs = true →
  products d !! s = Some p →
  ∃ p', products (serve rs d).2 !! s = Some p' ∧
        p_quantity p' + total_reserved s (serve rs d).2
          = p_quantity p + total_reserved s d ∧
        p_name p' = p_name p ∧ p_category p' = p_category p ∧
        p_price p' = p_price p.
Proof.
  revert d p. induction rs as [|r rs IH]; intros d p Hall Hp.
  - exists p. done.
  - simpl in Hall. apply andb_prop in Hall as [Hr Hall].
    destruct (handle_conserves r d s p Hr Hp) as (p1 & Hp1 & Hq1 & Hn1 & Hc1 & Hpr1).
    destruct (IH (handle r d).2 p1 Hall Hp1) as (p2 & Hp2 & Hq2 & Hn2 & Hc2 & Hpr2).
    rewrite serve_cons. simpl. exists p2. split; [done|].
    split; [lia|]. split; [congruence|]. split; congruence.
Qed.

Lemma stock_plus_reserved_is_conserved_witness :
  ∃ p', products
          (serve [PostOrder (customer_order [Item "SKU1" "Helmet" 4 100] None);
                  PutOrder "ORD0001" (customer_order [Item "SKU1" "Helmet" 7 100] None);
                  DeleteOrder "ORD0001"] shop).2 !! "SKU1" = Some p' ∧
        p_quantity p'
        + total_reserved "SKU1"
            (serve [PostOrder (customer_order [Item "SKU1" "Helmet" 4 100] None);
                    PutOrder "ORD0001" (customer_order [Item "SKU1" "Helmet" 7 100] None);
                    DeleteOrder "ORD0001"] shop).2
        = 10 + total_reserved "SKU1" shop.
Proof.
  destruct (stock_plus_reserved_is_conserved
              [PostOrder (customer_order [Item "SKU1" "Helmet" 4 100] None);
               PutOrder "ORD0001" (customer_order [Item "SKU1" "Helmet" 7 100] None);
               DeleteOrder "ORD0001"]
              shop "SKU1" (Product "Helmet" (Some "Helmets") 10 100))
    as (p' & Hp' & Hq & _).
  - reflexivity.
  - reflexivity.
  - exists p'. split; [exact Hp'|exact Hq].
Defined.

(** ** When quantities stay non-negative *)

(** X10: update never takes a quantity below zero: if no product is
    negative before, none is after, whatever the payload. *)
Theorem update_never_goes_negative (oid : string) (data : order_data) (d : db) :
  (∀ s p, products d !! s = Some p → 0 ≤ p_quantity p) →
  ∀ s p, products (update_order oid data d).2 !! s = Some p → 0 ≤ p_quantity p.
Proof. apply update_keeps_stock_nonnegative. Qed.

Lemma shop_nonnegative s p : products shop !! s = Some p → 0 ≤ p_quantity p.
Proof.
  unfold shop. simpl. intros Hp.
  apply lookup_singleton_Some in Hp as [_ <-]. simpl. lia.
Qed.

Lemma reconcile_db_nonnegative s p :
  products reconcile_db !! s = Some p → 0 ≤ p_quantity p.
Proof.
  unfold reconcile_db. simpl. intros Hp.
  apply lookup_insert_Some in Hp as [[_ <-]|[_ Hp]]; [simpl; lia|].
  apply lookup_insert_Some in Hp as [[_ <-]|[_ Hp]]; [simpl; lia|].
  apply lookup_singleton_Some in Hp as [_ <-]. simpl. lia.
Qed.

Lemma update_never_goes_negative_witness :
  0 ≤ p_quantity (Product "Beta" None 2 20).
Proof.
  apply (update_never_goes_negative "ORD0001" reconcile_intent reconcile_db
           reconcile_db_nonnegative "B" (Product "Beta" None 2 20)).
  vm_compute. reflexivity.
Defined.

Lemma requested_distinct s its :
  NoDup (sku <$> its) →
  requested s its = 0 ∨ ∃ it, it ∈ its ∧ sku it = s ∧ requested s its = quantity it.
Proof.
  unfold requested. induction its as [|it its IH]; [by left|].
  rewrite fmap_cons. intros [Hnotin Hnd]%NoDup_cons. simpl.
  destruct (decide (sku it = s)) as [Hs|Hs].
  - right. exists it. split; [left|]. split; [done|].
    fold (requested s its). rewrite requested_absent; [lia|].
    intros it' Hin' Heq. apply Hnotin. rewrite Hs, <- Heq.
    apply list_elem_of_fmap. eauto.
  - destruct (IH Hnd) as [H0|(it' & Hin' & Hs' & Hq)]; [by left|].
    right. exists it'. split; [by right|done].
Qed.

(** X11: a create whose line items name pairwise distinct skus never
    takes a quantity below zero. *)
Theorem create_distinct_skus_never_goes_negative (data : order_data) (d : db) :
  NoDup (sku <$> items data) →
  (∀ s p, products d !! s = Some p → 0 ≤ p_quantity p) →
  ∀ s p, products (handle_create_order data d).2 !! s = Some p → 0 ≤ p_quantity p.
Proof.
  intros Hnd Hnn s p'.
  destruct (handle_create_order_cases data d) as [Hok|[msg Hbad]];
    [|rewrite Hbad; apply Hnn].
  pose proof (create_commits _ _ _ _ Hok) as (Hfind & _ & _ & _).
  rewrite Hok. simpl. rewrite consume_lookup.
  destruct (products d !! s) as [p|] eqn:Hp; [|done]. simpl. intros [= <-]. simpl.
  pose proof (Hnn s p Hp) as Hp0.
  destruct (requested_distinct s (items data) Hnd) as [->|(it & Hin & Hs & ->)];
    [lia|].
  eapply find_none in Hfind; [|by apply list_elem_of_In].
  apply negb_false_iff, available_true in Hfind as (p1 & Hp1 & Hle).
  rewrite Hs, Hp in Hp1. injection Hp1 as <-. lia.
Qed.

Lemma create_distinct_skus_never_goes_negative_witness :
  0 ≤ p_quantity (Product "Helmet" (Some "Helmets") 6 100).
Proof.
  apply (create_distinct_skus_never_goes_negative
           (customer_order [Item "SKU1" "Helmet" 4 100] None) shop)
    with (s := "SKU1").
  - simpl. apply NoDup_singleton.
  - exact shop_nonnegative.
  - vm_compute. reflexivity.
Defined.

Lemma sum_rows_nonnegative s (rows : list order_item) :
  (∀ row, row ∈ rows → 0 ≤ oi_quantity row) → 0 ≤ sum_rows s rows.
Proof.
  unfold sum_rows. induction rows as [|row rows IH]; intros Hall; simpl; [done|].
  assert (0 ≤ oi_quantity row) by (apply Hall; left).
  assert (0 ≤ foldr (λ row acc, if decide (oi_product_sku row = s)
                                then oi_quantity row + acc else acc) 0 rows)
    by (apply IH; intros r Hr; apply Hall; by right).
  case_decide; lia.
Qed.

(** X12: delete never takes a quantity below zero when the rows of the
    order hold no negative quantity. *)
Theorem delete_never_goes_negative (oid : string) (d : db) :
  (∀ row, row ∈ rows_of oid d → 0 ≤ oi_quantity row) →
  (∀ s p, products d !! s = Some p → 0 ≤ p_quantity p) →
  ∀ s p, products (delete_order oid d).2 !! s = Some p → 0 ≤ p_quantity p.
Proof.
  intros Hrows Hnn s p'. rewrite delete_order_eq. simpl.
  rewrite restock_lookup.
  destruct (products d !! s) as [p|] eqn:Hp; [|done]. simpl. intros [= <-]. simpl.
  pose proof (Hnn s p Hp). pose proof (sum_rows_nonnegative s _ Hrows) as Hsum.
  unfold sum_rows in Hsum. lia.
Qed.

Lemma delete_never_goes_negative_witness :
  0 ≤ p_quantity (Product "Alpha" None 5 10).
Proof.
  apply (delete_never_goes_negative "ORD0001" reconcile_db) with (s := "A").
  - intros row Hrow. vm_compute in Hrow.
    apply elem_of_cons in Hrow as [->|Hrow]; [simpl; lia|].
    apply list_elem_of_singleton in Hrow as ->. simpl. lia.
  - exact reconcile_db_nonnegative.
  - vm_compute. reflexivity.
Defined.

(** ** Invoice figures *)

Lemma view_new_rows oid (its : list item) :
  view_item <$> (item_row oid <$> its) = its.
Proof.
  rewrite <- list_fmap_compose. rewrite <- (list_fmap_id its) at 2.
  apply list_fmap_ext. intros i it _. apply view_item_row.
Qed.

Lemma invoice_of_new_rows oid d o its :
  orders d !! oid = Some o →
  List.filter (of_order oid) (order_items d) = item_row oid <$> its →
  ∃ inv, invoice_figures oid d = Some inv ∧
         (inv_subtotal inv == line_total_sum its)%Q ∧
         (inv_gst_amount inv == inv_subtotal inv * gst_rate o)%Q ∧
         inv_total_cost inv = (subtotal_of its + subtotal_of its * gst_rate o)%Q.
Proof.
  intros Ho Hrows. unfold invoice_figures. rewrite Ho, Hrows, view_new_rows. simpl.
  eexists. split; [done|]. simpl. split; [apply subtotal_of_sum|]. split; reflexivity.
Qed.

(** X13: the figures the invoice of an order is printed from agree with
    what create and update stored: right after a committed create (on a
    consistent database) or update, the invoice subtotal is the sum of
    price * quantity over the payload's items, the tax is subtotal * the
    stored rate, and the invoice total equals the stored total_cost. *)
Theorem invoice_matches_stored_total :
  (∀ data d oid d',
     db_consistent d = true →
     handle_create_order data d = (Created oid, d') →
     ∃ o inv, orders d' !! oid = Some o ∧ invoice_figures oid d' = Some inv ∧
              (inv_subtotal inv == line_total_sum (items data))%Q ∧
              (inv_gst_amount inv == inv_subtotal inv * gst_rate o)%Q ∧
              (inv_total_cost inv == total_cost o)%Q) ∧
  (∀ oid data d d',
     update_order oid data d = (Updated oid, d') →
     ∃ o inv, orders d' !! oid = Some o ∧ invoice_figures oid d' = Some inv ∧
              (inv_subtotal inv == line_total_sum (items data))%Q ∧
              (inv_gst_amount inv == inv_subtotal inv * gst_rate o)%Q ∧
              (inv_total_cost inv == total_cost o)%Q).
Proof.
  split.
  - intros data d oid d' Hc Hcreate.
    apply create_commits in Hcreate as (_ & Hfresh & -> & ->).
    assert (orders (created_db data d) !! order_id_of (last_number d + 1)
            = Some (created_order data)) as Ho
      by (unfold created_db; simpl; by rewrite lookup_insert_eq).
    destruct (invoice_of_new_rows _ _ _ (items data) Ho (created_rows data d Hc Hfresh))
      as (inv & Hinv & Hsub & Hgst & Htot).
    exists (created_order data), inv. repeat split; try done.
    rewrite Htot. reflexivity.
  - intros oid data d d' Hupd. apply update_commits in Hupd as [_ ->].
    assert (orders (updated_db oid data d) !! oid = Some (updated_order oid data d))
      as Ho by (unfold updated_db; simpl; by rewrite lookup_insert_eq).
    destruct (invoice_of_new_rows _ _ _ (items data) Ho (updated_rows oid data d))
      as (inv & Hinv & Hsub & Hgst & Htot).
    exists (updated_order oid data d), inv. repeat split; try done.
    rewrite Htot. reflexivity.
Qed.

Lemma invoice_matches_stored_total_witness :
  ∃ o inv,
    orders (updated_db "ORD0001" reconcile_intent reconcile_db) !! "ORD0001" = Some o ∧
    invoice_figures "ORD0001" (updated_db "ORD0001" reconcile_intent reconcile_db)
      = Some inv ∧
    (inv_total_cost inv == total_cost o)%Q.
Proof.
  destruct invoice_matches_stored_total as [_ Hupd].
  destruct (Hupd "ORD0001" reconcile_intent reconcile_db
              (updated_db "ORD0001" reconcile_intent reconcile_db))
    as (o & inv & Ho & Hinv & _ & _ & Htot).
  - vm_compute. reflexivity.
  - exists o, inv. split; [exact Ho|]. split; [exact Hinv|exact Htot].
Defined.

Lemma Qmax_spec x y :
  (y <= Qmax x y)%Q ∧ (x <= Qmax x y)%Q ∧ (Qmax x y == y ∨ Qmax x y == x)%Q.
Proof.
  unfold Qmax. destruct (Qle_bool y x) eqn:Hle.
  - apply Qle_bool_iff in Hle. split; [done|]. split; [apply Qle_refl|].
    right. reflexivity.
  - assert (¬ (y <= x)%Q) as Hn by (rewrite <- Qle_bool_iff; congruence).
    apply Qnot_le_lt in Hn. split; [apply Qle_refl|].
    split; [by apply Qlt_le_weak|]. left. reflexivity.
Qed.

(** X14: an invoice exists exactly for the stored orders; its balance
    due is never negative, never less than total minus the advance
    received, and equal to one of the two. *)
Theorem invoice_balance_due (oid : string) (d : db) :
  (orders d !! oid = None → invoice_figures oid d = None) ∧
  (∀ o, orders d !! oid = Some o →
     ∃ inv, invoice_figures oid d = Some inv ∧
            (0 <= inv_balance_due inv)%Q ∧
            (inv_total_cost inv - advance_received o <= inv_balance_due inv)%Q ∧
            (inv_balance_due inv == 0 ∨
             inv_balance_due inv == inv_total_cost inv - advance_received o)%Q).
Proof.
  unfold invoice_figures. split; [by intros ->|].
  intros o ->. simpl. eexists. split; [done|]. simpl.
  match goal with |- context [Qmax ?x ?y] =>
    destruct (Qmax_spec x y) as (H0 & Hx & Hcase) end.
  split; [exact H0|]. split.
  - eapply Qle_trans; [|exact Hx]. apply Qle_lteq. right.
    rewrite or_zero_eq. reflexivity.
  - destruct Hcase as [Hc|Hc]; [by left|right].
    rewrite Hc. rewrite or_zero_eq. reflexivity.
Qed.

Lemma invoice_balance_due_witness :
  ∃ inv, invoice_figures "ORD0001" reconcile_db = Some inv ∧
         (0 <= inv_balance_due inv)%Q.
Proof.
  destruct (invoice_balance_due "ORD0001" reconcile_db) as [_ H].
  destruct (H (created_order
                 (customer_order [Item "A" "Alpha" 3 10; Item "B" "Beta" 2 20]
                                 (Some 0.18%Q))))
    as (inv & Hinv & H0 & _).
  - reflexivity.
  - exists inv. split; [exact Hinv|exact H0].
Defined.

(** ** Catalog requests and stored orders *)

(** X15: adding, changing or deleting a product or a category leaves the
    orders table, the order rows and the counter as they were; an order
    read back afterwards, and its invoice figures, are unchanged, also
    when the product it names has been repriced or deleted. *)
Theorem catalog_requests_leave_orders_alone (r : request) (d : db) :
  is_order_request r = false →
  orders (handle r d).2 = orders d ∧
  order_items (handle r d).2 = order_items d ∧
  last_number (handle r d).2 = last_number d ∧
  ∀ oid, get_order oid (handle r d).2 = get_order oid d ∧
         invoice_figures oid (handle r d).2 = invoice_figures oid d.
Proof.
  intros Hr.
  assert (orders (handle r d).2 = orders d ∧
          order_items (handle r d).2 = order_items d ∧
          last_number (handle r d).2 = last_number d) as (Ho & Hi & Hl).
  { destruct r as [| | |pd|s pd|s|name|name]; try done; simpl.
    - unfold add_product. by destruct (products d !! pd_sku pd).
    - unfold update_product. by destruct (products d !! s).
    - unfold delete_product. by destruct (products d !! s).
    - unfold add_category. by case_decide.
    - unfold delete_category, delete_category_row. by case_decide. }
  split; [done|]. split; [done|]. split; [done|].
  intros oid. unfold get_order, invoice_figures. by rewrite Ho, Hi.
Qed.

Lemma catalog_requests_leave_orders_alone_witness :
  get_order "ORD0001" (handle (DeleteProduct "A") reconcile_db).2
  = get_order "ORD0001" reconcile_db.
Proof.
  destruct (catalog_requests_leave_orders_alone (DeleteProduct "A") reconcile_db)
    as (_ & _ & _ & H).
  - reflexivity.
  - apply (H "ORD0001").
Defined.

(** ** Listing the orders *)

Lemma id_desc_trans : Transitive id_desc.
Proof.
  intros a b c Hab Hbc. unfold id_desc in *.
  by transitivity (b.1).
Qed.

Lemma id_desc_total : Total id_desc.
Proof.
  intros a b. unfold id_desc.
  destruct (total String.le a.1 b.1); auto.
Qed.

Lemma StronglySorted_lookup_lt {A} (R : relation A) (l : list A) i j x y :
  StronglySorted R l → (i < j)%nat → l !! i = Some x → l !! j = Some y → R x y.
Proof.
  intros Hs. revert i j. induction Hs as [|a l Hs IH Hall]; intros i j Hij Hi Hj.
  - done.
  - destruct j as [|j]; [lia|]. simpl in Hj. destruct i as [|i]; simpl in Hi.
    + injection Hi as <-. rewrite Forall_forall in Hall. apply Hall.
      by eapply list_elem_of_lookup_2.
    + apply (IH i j); [lia|done..].
Qed.

Lemma sorted_orders d :
  StronglySorted id_desc (@merge_sort _ id_desc id_desc_dec (map_to_list (orders d))).
Proof.
  apply (@StronglySorted_merge_sort _ id_desc id_desc_dec id_desc_trans id_desc_total).
Qed.

Lemma get_orders_lookup d i a :
  get_orders d !! i = Some a →
  ∃ row, @merge_sort _ id_desc id_desc_dec (map_to_list (orders d)) !! i = Some row
         ∧ a = summary row.
Proof.
  unfold get_orders. rewrite list_lookup_fmap.
  destruct (_ !! i) as [row|]; simpl; [|done]. intros [= <-]. eauto.
Qed.

Lemma ascending_steps : forallb ascending_step (seqZ 0 9999) = true.
Proof. vm_compute. reflexivity. Qed.

Lemma order_ids_ascending m n :
  0 ≤ m → m ≤ n → n ≤ 9999 → String.le (order_id_of m) (order_id_of n).
Proof.
  intros Hm Hmn Hn.
  replace n with (m + Z.of_nat (Z.to_nat (n - m))) in * by lia.
  induction (Z.to_nat (n - m)) as [|k IH].
  - replace (m + Z.of_nat 0) with m by lia. reflexivity.
  - transitivity (order_id_of (m + Z.of_nat k)); [apply IH; lia|].
    pose proof ascending_steps as Hall. rewrite forallb_forall in Hall.
    specialize (Hall (m + Z.of_nat k)).
    replace (m + Z.of_nat (S k)) with (m + Z.of_nat k + 1) by lia.
    unfold String.le. apply Is_true_true. apply Hall.
    apply list_elem_of_In, elem_of_seqZ. lia.
Qed.

Lemma get_orders_permutation d :
  get_orders d ≡ₚ summary <$> map_to_list (orders d).
Proof. unfold get_orders. apply fmap_Permutation, merge_sort_Permutation. Qed.

(** X16: get_orders lists every stored order once, with its stored
    fields, in descending byte order of the identifiers.  For counter
    values from 0 to 9999 that is newest first: the order with the higher
    number stands before the one with the lower number.  ORD10000 is
    below ORD9999 in that order, so from there on a newer order is listed
    after older ones. *)
Theorem get_orders_listing (d : db) :
  get_orders d ≡ₚ summary <$> map_to_list (orders d) ∧
  (∀ i j a b, (i < j)%nat → get_orders d !! i = Some a → get_orders d !! j = Some b →
     String.le (s_id b) (s_id a)) ∧
  (∀ m n i j a b,
     0 ≤ m → m < n → n ≤ 9999 →
     get_orders d !! i = Some a → s_id a = order_id_of n →
     get_orders d !! j = Some b → s_id b = order_id_of m →
     (i < j)%nat) ∧
  (String.le (order_id_of 10000) (order_id_of 9999) ∧
   order_id_of 10000 ≠ order_id_of 9999).
Proof.
  assert (∀ i j a b, (i < j)%nat → get_orders d !! i = Some a →
            get_orders d !! j = Some b → String.le (s_id b) (s_id a)) as Hsorted.
  { intros i j a b Hij Ha Hb.
    apply get_orders_lookup in Ha as (ra & Hra & ->).
    apply get_orders_lookup in Hb as (rb & Hrb & ->).
    apply (StronglySorted_lookup_lt id_desc _ i j ra rb (sorted_orders d) Hij Hra Hrb). }
  split; [|split; [exact Hsorted|split]].
  - apply get_orders_permutation.
  - intros m n i j a b Hm Hmn Hn Ha Hida Hb Hidb.
    destruct (Nat.lt_trichotomy i j) as [Hlt|[Heq|Hgt]]; [done|..].
    + subst j. rewrite Ha in Hb. injection Hb as <-.
      rewrite Hida in Hidb. apply order_id_of_inj in Hidb. lia.
    + pose proof (Hsorted j i b a Hgt Hb Ha) as Hle.
      rewrite Hida, Hidb in Hle.
      assert (String.le (order_id_of m) (order_id_of n)) as Hle'
        by (apply order_ids_ascending; lia).
      assert (order_id_of n = order_id_of m) as Heq
        by (by apply (anti_symm String.le)).
      apply order_id_of_inj in Heq. lia.
  - split; [by vm_compute|]. intros Heq%order_id_of_inj. lia.
Qed.

Lemma get_orders_listing_witness : (0 < 1)%nat.
Proof.
  destruct (get_orders_listing
              (serve [PostOrder (customer_order [Item "SKU1" "Helmet" 1 100] None);
                      PostOrder (customer_order [Item "SKU1" "Helmet" 2 100] None)]
                     shop).2) as (_ & _ & Hnewest & _).
  eapply (Hnewest 1 2 0%nat 1%nat); try lia; vm_compute; reflexivity.
Defined.

(** ** After a delete *)

(** X17: whatever delete_order answers, afterwards the identifier is
    gone for every endpoint: reading it gives 404, it has no invoice, it
    is not listed, an update of it is refused and a further delete
    answers 404 and changes nothing. *)
Theorem deleted_order_is_gone (oid : string) (data : order_data) (d : db) :
  let d1 := (delete_order oid d).2 in
  get_order oid d1 = NotFound ∧
  invoice_figures oid d1 = None ∧
  (oid ∉ (s_id <$> get_orders d1)) ∧
  (∃ msg, update_order oid data d1 = (BadRequest msg, d1)) ∧
  delete_order oid d1 = (NotFound, d1).
Proof.
  simpl. rewrite delete_order_eq. simpl.
  assert (orders (deleted_db oid d) !! oid = None) as Hgone by apply lookup_delete_eq.
  assert (rows_of oid (deleted_db oid d) = []) as Hrows by apply filter_rest_none.
  split; [unfold get_order; by rewrite Hgone|].
  split; [unfold invoice_figures; by rewrite Hgone|].
  split.
  { intros Hin. apply list_elem_of_fmap in Hin as (a & Hid & Ha).
    assert (a ∈ summary <$> map_to_list (orders (deleted_db oid d))) as Ha'.
    { by rewrite <- (get_orders_permutation (deleted_db oid d)). }
    apply list_elem_of_fmap in Ha' as ([k o] & -> & Hko).
    apply elem_of_map_to_list in Hko. simpl in Hid. subst k. congruence. }
  split; [by apply update_missing_refused|].
  by apply delete_order_absent.
Qed.

(** ** Catalog requests that are refused *)

(** X18: a catalog request answered 409 (sku or category already there)
    or 404 (sku or category missing) leaves the database as it was. *)
Theorem catalog_refusals_change_nothing (r : request) (d : db) :
  is_order_request r = false →
  (handle r d).1 = Accepted ∨
  (((handle r d).1 = Conflict ∨ (handle r d).1 = NotFound) ∧ (handle r d).2 = d).
Proof.
  intros Hr. destruct r as [| | |pd|s pd|s|name|name]; try done; simpl.
  - unfold add_product. destruct (products d !! pd_sku pd); simpl; auto.
  - unfold update_product. destruct (products d !! s); simpl; auto.
  - unfold delete_product. destruct (products d !! s); simpl; auto.
  - unfold add_category. case_decide; simpl; auto.
  - unfold delete_category, delete_category_row. case_decide; simpl; auto.
Qed.

Lemma catalog_refusals_change_nothing_witness :
  (handle (PostProduct (ProductData "SKU1" "Helmet" None 3 90)) shop).1 = Accepted ∨
  (((handle (PostProduct (ProductData "SKU1" "Helmet" None 3 90)) shop).1 = Conflict ∨
    (handle (PostProduct (ProductData "SKU1" "Helmet" None 3 90)) shop).1 = NotFound)
   ∧ (handle (PostProduct (ProductData "SKU1" "Helmet" None 3 90)) shop).2 = shop).
Proof.
  apply (catalog_refusals_change_nothing
           (PostProduct (ProductData "SKU1" "Helmet" None 3 90)) shop).
  reflexivity.
Defined.

(** ** Edge cases of create and update *)

(** X19: a create without line items is accepted on a consistent
    database: it stores a header with total 0 under the next identifier,
    adds no row and touches no product. *)
Theorem create_without_items (data : order_data) (d : db) :
  items data = [] →
  db_consistent d = true →
  ∃ d' o,
    handle_create_order data d = (Created (order_id_of (last_number d + 1)), d') ∧
    orders d' !! order_id_of (last_number d + 1) = Some o ∧
    (total_cost o == 0)%Q ∧
    products d' = products d ∧
    order_items d' = order_items d.
Proof.
  intros Hitems Hc. exists (created_db data d), (created_order data).
  split.
  { apply create_succeeds; [|by apply next_id_fresh].
    rewrite Hitems. intros it Hin. by apply not_elem_of_nil in Hin. }
  unfold created_db, created_order. simpl. rewrite Hitems. simpl.
  split; [by rewrite lookup_insert_eq|]. split; [unfold subtotal_of; simpl; ring|].
  split; [done|]. by rewrite app_nil_r.
Qed.

Lemma create_without_items_witness :
  ∃ d' o,
    handle_create_order (customer_order [] None) shop = (Created "ORD0001", d') ∧
    orders d' !! "ORD0001" = Some o ∧ (total_cost o == 0)%Q.
Proof.
  destruct (create_without_items (customer_order [] None) shop)
    as (d' & o & Hc & Ho & Ht & _).
  - reflexivity.
  - reflexivity.
  - exists d', o. split; [exact Hc|]. split; [exact Ho|exact Ht].
Defined.

(** X20: an update of a stored order that asks, for every sku, for no
    more than the order's rows already hold commits whatever the stock
    is, also when a product it names is no longer in the catalog. *)
Theorem update_that_only_reduces_commits (oid : string) (data : order_data) (d : db) :
  is_Some (orders d !! oid) →
  (∀ s, requested s (items data) ≤ reserved oid s d) →
  ∃ d', update_order oid data d = (Updated oid, d').
Proof.
  intros Ho Hle. exists (updated_db oid data d).
  apply update_succeeds; [done|].
  intros s Hs. unfold delta in Hs. specialize (Hle s). lia.
Qed.

Lemma update_that_only_reduces_commits_witness :
  ∃ d', update_order "ORD0001" (customer_order [] None) reconcile_db
        = (Updated "ORD0001", d').
Proof.
  apply (update_that_only_reduces_commits "ORD0001" (customer_order [] None)
           reconcile_db).
  - vm_compute. eexists. reflexivity.
  - intros s. unfold requested, reserved. simpl. repeat case_decide; lia.
Defined.

(** X21: when a sku's positive delta is not in stock, or its product is
    unknown, update answers 400 and changes nothing, and the error text
    is the one for a sku of the edit whose positive delta fails the
    check: it spells out that sku, what is on hand and the additional
    quantity needed. *)
Theorem update_rejection_names_sku (oid : string) (data : order_data) (d : db) (s : string) :
  0 < delta oid data d s →
  (products d !! s = None ∨
   ∃ p, products d !! s = Some p ∧ p_quantity p < delta oid data d s) →
  ∃ s', 0 < delta oid data d s' ∧
    ((products d !! s' = None ∧
      update_order oid data d =
        (BadRequest ("Product with SKU '" +:+ s' +:+ "' not found."), d))
     ∨
     (∃ p, products d !! s' = Some p ∧ p_quantity p < delta oid data d s' ∧
      update_order oid data d =
        (BadRequest ("Insufficient stock for " +:+ p_name p +:+ " (SKU: "
                     +:+ s' +:+ "). Available: " +:+ pretty (p_quantity p)
                     +:+ ", additional needed: "
                     +:+ pretty (delta oid data d s') +:+ "."), d))).
Proof.
  intros Hlt Hbad.
  destruct (update_rejected oid data d s Hlt Hbad) as ([s' dl] & Hin & Hav & Hresp).
  apply order_deltas_elem in Hin as [_ ->].
  unfold delta_available in Hav. simpl in Hav.
  destruct (Z.ltb_spec 0 (delta oid data d s')) as [Hpos|]; [|done].
  exists s'. split; [done|]. rewrite Hresp. unfold delta_error. simpl.
  destruct (products d !! s') as [p|] eqn:Hp.
  - right. exists p. split; [done|].
    apply negb_false_iff, Z.ltb_lt in Hav. done.
  - left. done.
Qed.

Lemma update_rejection_names_sku_witness :
  ∃ msg,
    update_order "ORD0001"
      (customer_order [Item "A" "Alpha" 9 10] None) reconcile_db
    = (BadRequest msg, reconcile_db).
Proof.
  destruct (update_rejection_names_sku "ORD0001"
              (customer_order [Item "A" "Alpha" 9 10] None) reconcile_db "A")
    as (s' & _ & [[_ H]|(p & _ & _ & H)]).
  - vm_compute. reflexivity.
  - right. exists (Product "Alpha" None 2 10). split; [reflexivity|].
    vm_compute. reflexivity.
  - eexists. exact H.
  - eexists. exact H.
Defined.
